(** * Dev-Quests: the progression engine of [app.js]

    A shallow embedding of the state manager ([AppState]) of the Dev-Quests
    tracker and of the pure helpers it relies on, together with the
    properties of the engine.

    Conventions of the embedding.
    - JavaScript numbers that the engine only ever adds, subtracts, compares
      and clamps are integers here ([Z]); the doubles of the source are exact
      on them.
    - The objects [history] and [dailies] are finite maps from strings to
      integers ([gmap string Z]); reading a missing key gives [undefined],
      which [x || 0] and the truthiness tests of the source turn into [0].
    - A [Date] is seen through [getFullYear], [getMonth] and [getDate] only,
      so it is the calendar triple those three return.
    - The clock ([new Date()], [Date.now()]) is an argument of the
      operations that read it.
    - Persistence ([save]) and the listeners ([notify]) do not change the
      state and are left out; the deferred pop-ups ([setTimeout]) are
      collected in a list returned next to the new state. *)

From Stdlib Require Import ZArith Lia List Bool Ascii String.
From Stdlib Require QArith Qminmax.
From stdpp Require Import gmap strings list fin_maps pretty.

Local Open Scope Z_scope.

(** ** Constants and utilities *)

Definition BASE_XP : Z := 100.

(** [Math.floor(Math.sqrt(xp / BASE_XP)) + 1].  For [0 <= xp] the integer
    square root of the integer quotient is the floor of the real square
    root of the real quotient (see [calculateLevel_spec]); the rounding of
    doubles is not modelled.  For [xp < 0] the source computes [NaN]; every
    comparison with [NaN] is false, and so are the comparisons [>= 5],
    [>= 10] with the value [1] computed here. *)
Definition calculateLevel (xp : Z) : Z := Z.sqrt (xp / BASE_XP) + 1.

(** [Math.pow(level, 2) * BASE_XP]. *)
Definition xpForNextLevel (level : Z) : Z := level ^ 2 * BASE_XP.

(** ** Calendar dates *)

Record Date := mkDate { getFullYear : Z; getMonth : Z; getDate : Z }.

Definition is_leap (y : Z) : bool :=
  (y mod 4 =? 0) && (negb (y mod 100 =? 0) || (y mod 400 =? 0)).

(** Days of month [m] (zero-based, as [getMonth] counts) of year [y]. *)
Definition days_in_month (y m : Z) : Z :=
  if m =? 1 then (if is_leap y then 29 else 28)
  else if (m =? 3) || (m =? 5) || (m =? 8) || (m =? 10) then 30
  else 31.

(** [d.setDate(d.getDate() - 1)]: day [0] of a month is the last day of the
    month before it. *)
Definition setDate_prev (d : Date) : Date :=
  if 1 <? getDate d then mkDate (getFullYear d) (getMonth d) (getDate d - 1)
  else if 0 <? getMonth d then
    mkDate (getFullYear d) (getMonth d - 1)
           (days_in_month (getFullYear d) (getMonth d - 1))
  else mkDate (getFullYear d - 1) 11 31.

(** [s.padStart(n, c)] for a one-character pad string. *)
Definition padStart (n : nat) (c : ascii) (s : string) : string :=
  String.string_of_list_ascii (replicate (n - String.length s) c) +:+ s.

(** The template string
    [`${d.getFullYear()}-${String(d.getMonth() + 1).padStart(2, '0')}-${String(d.getDate()).padStart(2, '0')}`]
    shared by [getTodayString] and [updateStreak]. *)
Definition dateString (d : Date) : string :=
  pretty (getFullYear d) +:+ "-" +:+
  padStart 2 "0"%char (pretty (getMonth d + 1)) +:+ "-" +:+
  padStart 2 "0"%char (pretty (getDate d)).

Definition getTodayString (now : Date) : string := dateString now.


(** ** Quests, goals and achievements *)

(** The [type] of a quest.  The engine tests [type === 'boolean'] and treats
    every other value as a counter.  The fields that only the views read
    ([icon] and [desc] of a quest, [desc] and [emoji] of an achievement) are
    left out of the records below. *)
Inductive QuestType := boolean | counter.

Module Quest.
(** [max] is absent from the boolean templates. *)
Record t := mk {
  id : string; title : string; type : QuestType; max : option Z;
  xpPer : Z; custom : bool }.
End Quest.

Module Goal.
Record t := mk { id : string; title : string; target : Z; current : Z }.
End Goal.

Definition DAILY_QUESTS_TEMPLATE : list Quest.t :=
  [ Quest.mk "leetcode" "Solve LeetCode Problems" counter (Some 5) 15 false;
    Quest.mk "commit" "Make a GitHub Commit" boolean None 25 false;
    Quest.mk "article" "Read Tech Docs/Article" boolean None 20 false ].

Definition PITCH_QUEST : Quest.t :=
  Quest.mk "pitch" "Pitch a Local Business" boolean None 50 false.

Record State := mkState {
  xp : Z;
  totalCompleted : Z;
  goalsCompleted : Z;
  lastDate : string;
  dailies : gmap string Z;
  goals : list Goal.t;
  customQuests : list Quest.t;
  history : gmap string Z;
  unlockedAchievements : list string;
  currentStreak : Z }.

Module Achievement.
Record t := mk { id : string; name : string; condition : State -> bool }.
End Achievement.

Definition ACHIEVEMENTS : list Achievement.t :=
  [ Achievement.mk "first_quest" "Getting Started" (fun state => 1 <=? totalCompleted state);
    Achievement.mk "level_5" "Rising Developer" (fun state => 5 <=? calculateLevel (xp state));
    Achievement.mk "level_10" "Expert Coder" (fun state => 10 <=? calculateLevel (xp state));
    Achievement.mk "streak_7" "Week Warrior" (fun state => 7 <=? currentStreak state);
    Achievement.mk "streak_30" "Monthly Master" (fun state => 30 <=? currentStreak state);
    Achievement.mk "complete_10" "Quest Hunter" (fun state => 10 <=? totalCompleted state);
    Achievement.mk "complete_50" "Quest Veteran" (fun state => 50 <=? totalCompleted state);
    Achievement.mk "complete_100" "Quest Master" (fun state => 100 <=? totalCompleted state);
    Achievement.mk "first_goal" "Goal Setter" (fun state => 1 <=? goalsCompleted state);
    Achievement.mk "custom_quest" "Self Driven" (fun state => (0 <? length (customQuests state))%nat) ].

(** The pop-ups scheduled with [setTimeout]. *)
Inductive Notification :=
  | showLevelUpNotification (level : Z)
  | showAchievementNotification (name : string).

(** ** The state manager [AppState] *)

Definition getDefaultState : State :=
  mkState 0 0 0 "" ∅ [] [] ∅ [] 0.

(** Field assignments [this.state.f = v]. *)
Definition set_xp (v : Z) (s : State) : State :=
  mkState v (totalCompleted s) (goalsCompleted s) (lastDate s) (dailies s)
          (goals s) (customQuests s) (history s) (unlockedAchievements s) (currentStreak s).
Definition set_totalCompleted (v : Z) (s : State) : State :=
  mkState (xp s) v (goalsCompleted s) (lastDate s) (dailies s)
          (goals s) (customQuests s) (history s) (unlockedAchievements s) (currentStreak s).
Definition set_goalsCompleted (v : Z) (s : State) : State :=
  mkState (xp s) (totalCompleted s) v (lastDate s) (dailies s)
          (goals s) (customQuests s) (history s) (unlockedAchievements s) (currentStreak s).
Definition set_lastDate (v : string) (s : State) : State :=
  mkState (xp s) (totalCompleted s) (goalsCompleted s) v (dailies s)
          (goals s) (customQuests s) (history s) (unlockedAchievements s) (currentStreak s).
Definition set_dailies (v : gmap string Z) (s : State) : State :=
  mkState (xp s) (totalCompleted s) (goalsCompleted s) (lastDate s) v
          (goals s) (customQuests s) (history s) (unlockedAchievements s) (currentStreak s).
Definition set_goals (v : list Goal.t) (s : State) : State :=
  mkState (xp s) (totalCompleted s) (goalsCompleted s) (lastDate s) (dailies s)
          v (customQuests s) (history s) (unlockedAchievements s) (currentStreak s).
Definition set_customQuests (v : list Quest.t) (s : State) : State :=
  mkState (xp s) (totalCompleted s) (goalsCompleted s) (lastDate s) (dailies s)
          (goals s) v (history s) (unlockedAchievements s) (currentStreak s).
Definition set_history (v : gmap string Z) (s : State) : State :=
  mkState (xp s) (totalCompleted s) (goalsCompleted s) (lastDate s) (dailies s)
          (goals s) (customQuests s) v (unlockedAchievements s) (currentStreak s).
Definition set_unlockedAchievements (v : list string) (s : State) : State :=
  mkState (xp s) (totalCompleted s) (goalsCompleted s) (lastDate s) (dailies s)
          (goals s) (customQuests s) (history s) v (currentStreak s).
Definition set_currentStreak (v : Z) (s : State) : State :=
  mkState (xp s) (totalCompleted s) (goalsCompleted s) (lastDate s) (dailies s)
          (goals s) (customQuests s) (history s) (unlockedAchievements s) v.

(** [obj[key] || 0]. *)
Definition get_or_0 (obj : gmap string Z) (key : string) : Z :=
  default 0 (obj !! key).

(** *** updateStreak *)

(** [this.state.history[dateStr] && this.state.history[dateStr] > 0]. *)
Definition active (h : gmap string Z) (dateStr : string) : bool :=
  match h !! dateStr with
  | Some v => 0 <? v
  | None => false
  end.

(** The [while (true)] loop; one unit of [fuel] is spent per iteration and
    [None] means that the fuel ran out before the [break]. *)
Fixpoint updateStreak_loop (fuel : nat) (h : gmap string Z) (now : Date)
    (d : Date) (count : Z) : option Z :=
  match fuel with
  | O => None
  | S fuel' =>
      let dateStr := dateString d in
      if active h dateStr then
        updateStreak_loop fuel' h now (setDate_prev d) (count + 1)
      else if (count =? 0) && String.eqb dateStr (getTodayString now) then
        updateStreak_loop fuel' h now (setDate_prev d) count
      else Some count
  end.

(** Iterations that always suffice (see [updateStreak_loop_terminates]). *)
Definition streak_fuel (h : gmap string Z) : nat := size h + 2.

(** [updateStreak()]: run the loop from [new Date()] with [count = 0] and
    store the count.  The [None] branch is not reached when [now] is a
    calendar date. *)
Definition updateStreak (now : Date) (s : State) : State :=
  match updateStreak_loop (streak_fuel (history s)) (history s) now now 0 with
  | Some count => set_currentStreak count s
  | None => s
  end.

(** *** checkAchievements *)

Definition includes (l : list string) (x : string) : bool := bool_decide (x ∈ l).

Definition check_achievement (acc : State * list Notification)
    (achievement : Achievement.t) : State * list Notification :=
  let '(s, out) := acc in
  if Achievement.condition achievement s
     && negb (includes (unlockedAchievements s) (Achievement.id achievement))
  then (set_unlockedAchievements
          (unlockedAchievements s ++ [Achievement.id achievement]) s,
        out ++ [showAchievementNotification (Achievement.name achievement)])
  else (s, out).

Definition checkAchievements (s : State) : State * list Notification :=
  fold_left check_achievement ACHIEVEMENTS (s, []).

(** *** updateDailyProgress *)

(** The argument [change]: the quest cards pass a boolean for a boolean
    quest and a number for a counter. *)
Inductive Change := CBool (b : bool) | CNum (n : Z).

(** [change ? 1 : 0] tests truthiness. *)
Definition truthy (c : Change) : bool :=
  match c with
  | CBool b => b
  | CNum n => negb (n =? 0)
  end.

(** [currentProgress + change] converts a boolean operand to a number. *)
Definition toNumber (c : Change) : Z :=
  match c with
  | CBool b => if b then 1 else 0
  | CNum n => n
  end.

(** The triple [(newProgress, actualXpGain, completedInc)] computed by the
    two branches on [type]. *)
Definition progress_delta (currentProgress : Z) (change : Change) (xpGain : Z)
    (type : QuestType) (max : Z) : Z * Z * Z :=
  match type with
  | boolean =>
      let newProgress := if truthy change then 1 else 0 in
      if (newProgress =? 1) && (currentProgress =? 0) then
        (newProgress, xpGain, 1)
      else if (newProgress =? 0) && (currentProgress =? 1) then
        (newProgress, - xpGain, -1)
      else (newProgress, 0, 0)
  | counter =>
      let newProgress := Z.max 0 (Z.min max (currentProgress + toNumber change)) in
      let diff := newProgress - currentProgress in
      let completedInc :=
        if (newProgress =? max) && (currentProgress <? max) then 1 else 0 in
      let completedInc :=
        if (newProgress <? max) && (currentProgress =? max) then -1
        else completedInc in
      (newProgress, diff * xpGain, completedInc)
  end.

(** [updateDailyProgress(questId, change, xpGain, type = 'counter', max = 1)];
    an omitted argument is [None]. *)
Definition updateDailyProgress (now : Date) (questId : string) (change : Change)
    (xpGain : Z) (type : option QuestType) (max : option Z) (s : State)
    : State * list Notification :=
  let type := default counter type in
  let max := default 1 max in
  let today := getTodayString now in
  let currentProgress := get_or_0 (dailies s) questId in
  let '(newProgress, actualXpGain, completedInc) :=
    progress_delta currentProgress change xpGain type max in
  let oldLevel := calculateLevel (xp s) in
  let s := set_xp (Z.max 0 (xp s + actualXpGain)) s in
  let s := set_totalCompleted (Z.max 0 (totalCompleted s + completedInc)) s in
  let s := set_dailies (<[questId := newProgress]> (dailies s)) s in
  let s := set_history
             (<[today := Z.max 0 (get_or_0 (history s) today + completedInc)]>
                (history s)) s in
  let newLevel := calculateLevel (xp s) in
  let levelUp :=
    if oldLevel <? newLevel then [showLevelUpNotification newLevel] else [] in
  let '(s, unlocked) := checkAchievements s in
  let s := updateStreak now s in
  (s, levelUp ++ unlocked).

(** *** Goals *)

(** [Date.now().toString()] for the millisecond count [ms]. *)
Definition fresh_id (ms : Z) : string := pretty ms.

(** [addGoal(title, target)].  The argument [target] is the integer that
    [parseInt] reads from the form value. *)
Definition addGoal (ms : Z) (title : string) (target : Z) (s : State) : State :=
  set_goals (goals s ++ [Goal.mk (fresh_id ms) title target 0]) s.

Definition updateGoal (id : string) (change : Z) (s : State)
    : State * list Notification :=
  match list_find (fun g => Goal.id g = id) (goals s) with
  | None => (s, [])
  | Some (goalIndex, goal) =>
      let newCurrent :=
        Z.max 0 (Z.min (Goal.target goal) (Goal.current goal + change)) in
      let completedNow :=
        (newCurrent =? Goal.target goal)
        && (Goal.current goal <? Goal.target goal) in
      let goal' :=
        Goal.mk (Goal.id goal) (Goal.title goal) (Goal.target goal) newCurrent in
      let s := set_goals (<[goalIndex := goal']> (goals s)) s in
      let '(s, bonus) :=
        if completedNow then
          (set_goalsCompleted (goalsCompleted s + 1) (set_xp (xp s + 200) s),
           [showAchievementNotification "Goal Complete! +200 XP"])
        else (s, []) in
      let '(s, unlocked) := checkAchievements s in
      (s, bonus ++ unlocked)
  end.

Definition deleteGoal (id : string) (s : State) : State :=
  set_goals (filter (fun g => Goal.id g ≠ id) (goals s)) s.

(** *** Custom quests *)

(** [{ ...quest, id: Date.now().toString() }] appended to [customQuests]. *)
Definition addCustomQuest (ms : Z) (quest : Quest.t) (s : State)
    : State * list Notification :=
  let quest' :=
    Quest.mk (fresh_id ms) (Quest.title quest) (Quest.type quest)
             (Quest.max quest) (Quest.xpPer quest) (Quest.custom quest) in
  checkAchievements (set_customQuests (customQuests s ++ [quest']) s).

Definition deleteCustomQuest (id : string) (s : State) : State :=
  set_customQuests (filter (fun q => Quest.id q ≠ id) (customQuests s)) s.

(** *** init *)

(** The record that [loadData] returns: any key may be missing. *)
Record SavedState := mkSaved {
  saved_xp : option Z;
  saved_totalCompleted : option Z;
  saved_goalsCompleted : option Z;
  saved_lastDate : option string;
  saved_dailies : option (gmap string Z);
  saved_goals : option (list Goal.t);
  saved_customQuests : option (list Quest.t);
  saved_history : option (gmap string Z);
  saved_unlockedAchievements : option (list string);
  saved_currentStreak : option Z }.

(** [{ ...this.getDefaultState(), ...savedState }]. *)
Definition merge_saved (d : State) (sv : SavedState) : State :=
  mkState (default (xp d) (saved_xp sv))
          (default (totalCompleted d) (saved_totalCompleted sv))
          (default (goalsCompleted d) (saved_goalsCompleted sv))
          (default (lastDate d) (saved_lastDate sv))
          (default (dailies d) (saved_dailies sv))
          (default (goals d) (saved_goals sv))
          (default (customQuests d) (saved_customQuests sv))
          (default (history d) (saved_history sv))
          (default (unlockedAchievements d) (saved_unlockedAchievements sv))
          (default (currentStreak d) (saved_currentStreak sv)).

(** The state after the load step of [init]; [this.state] is the default
    state set by the constructor. *)
Definition loaded (savedState : option SavedState) : State :=
  match savedState with
  | Some sv => merge_saved getDefaultState sv
  | None => getDefaultState
  end.

(** The daily reset of [init]. *)
Definition daily_reset (now : Date) (s : State) : State :=
  let today := getTodayString now in
  if negb (String.eqb (lastDate s) today) then
    let s := set_lastDate today s in
    let s := set_dailies ∅ s in
    let s :=
      if get_or_0 (history s) today =? 0
      then set_history (<[today := 0]> (history s)) s
      else s in
    updateStreak now s
  else s.

Definition init (savedState : option SavedState) (now : Date) : State :=
  daily_reset now (loaded savedState).

(** The quests shown on the dailies view for weekday [day] (0 = Sunday):
    the templates, the pitch quest spliced in at index 1 from Monday to
    Thursday, then the custom quests. *)
Definition quests_of_day (day : Z) (s : State) : list Quest.t :=
  (if (1 <=? day) && (day <=? 4)
   then take 1 DAILY_QUESTS_TEMPLATE ++ [PITCH_QUEST] ++ drop 1 DAILY_QUESTS_TEMPLATE
   else DAILY_QUESTS_TEMPLATE) ++ customQuests s.

(** ** Vocabulary of the properties *)

(** The triples that a [Date] can show. *)
Definition valid_date (d : Date) : Prop :=
  0 <= getMonth d <= 11 /\
  1 <= getDate d <= days_in_month (getFullYear d) (getMonth d).

(** [d1] is an earlier calendar day than [d2]. *)
Definition date_lt (d1 d2 : Date) : Prop :=
  getFullYear d1 < getFullYear d2 \/
  (getFullYear d1 = getFullYear d2 /\
   (getMonth d1 < getMonth d2 \/
    (getMonth d1 = getMonth d2 /\ getDate d1 < getDate d2))).

(** A rank that grows with the calendar order of valid dates. *)
Definition date_rank (d : Date) : Z :=
  (getFullYear d * 12 + getMonth d) * 31 + getDate d.

(** The day [k] days before [d]. *)
Definition days_before (k : nat) (d : Date) : Date :=
  Nat.iter k setDate_prev d.

(** The two-character fields of [dateString]. *)
Definition pad2 (n : Z) : string := padStart 2 "0"%char (pretty n).

(** The day from which [updateStreak] counts: today when today has a
    positive entry, yesterday when it has none (the skipped today). *)
Definition streak_start (h : gmap string Z) (now : Date) : Date :=
  if active h (dateString now) then now else setDate_prev now.

(** [n] consecutive days, walking backward from [start], have a positive
    entry, and the day after them (going backward) has none. *)
Definition streak_run (h : gmap string Z) (start : Date) (n : nat) : Prop :=
  (forall i, (i < n)%nat -> active h (dateString (days_before i start)) = true) /\
  active h (dateString (days_before n start)) = false.

(** The test of the today-skip branch. *)
Definition skips_today (now d : Date) (count : Z) : bool :=
  (count =? 0) && String.eqb (dateString d) (getTodayString now).

(** The achievements that an evaluation in state [s] finds newly unlocked:
    predicate true and identifier not yet present. *)
Definition newly_unlocked (s : State) : list Achievement.t :=
  List.filter
    (fun a => Achievement.condition a s
              && negb (includes (unlockedAchievements s) (Achievement.id a)))
    ACHIEVEMENTS.

(** What [checkAchievements] leaves in [unlockedAchievements] beyond the
    entries that were there before. *)
Definition appended (s : State) : list string :=
  drop (length (unlockedAchievements s))
       (unlockedAchievements (fst (checkAchievements s))).

(** The day and the history of the first streak example. *)
Definition today_2024_01_03 : Date := mkDate 2024 0 3.

Definition state_streak_example : State :=
  set_history {[ "2024-01-01" := 1; "2024-01-02" := 1; "2024-01-03" := 0 ]}
              getDefaultState.

(** A fresh state that has just reached 1600 xp. *)
Definition state_xp_1600 : State := set_xp 1600 getDefaultState.

(** [clamp(x, lo, hi)]. *)
Definition clamp (x lo hi : Z) : Z := Z.max lo (Z.min hi x).

(** The change of the completion counters on a move of a counter quest
    from progress [p] to [newProgress]: [+1] on reaching [max] from below,
    [-1] on leaving [max], [0] otherwise. *)
Definition completion_delta (p newProgress max : Z) : Z :=
  if (newProgress =? max) && (p <? max) then 1
  else if (newProgress <? max) && (p =? max) then -1
  else 0.

(** The call made by the button of a boolean quest card. *)
Definition toggle (now : Date) (questId : string) (target : bool) (xpPer : Z)
    (s : State) : State :=
  fst (updateDailyProgress now questId (CBool target) xpPer (Some boolean) None s).

(** The call made by the [+] and [-] buttons of a counter quest card. *)
Definition count_by (now : Date) (questId : string) (change xpPer max : Z)
    (s : State) : State :=
  fst (updateDailyProgress now questId (CNum change) xpPer (Some counter)
                           (Some max) s).


(** The state of a session left open over midnight: the LeetCode counter
    was completed (5 of 5) on 2024-01-02, and the clock now shows
    2024-01-03 without a reload. *)
Definition state_after_midnight : State :=
  mkState 75 1 0 "2024-01-02" {[ "leetcode" := 5 ]} [] []
          {[ "2024-01-02" := 1 ]} ["first_quest"] 1.

(** The goal [g] after [updateGoal] has moved it by [change]. *)
Definition goal_after (g : Goal.t) (change : Z) : Goal.t :=
  Goal.mk (Goal.id g) (Goal.title g) (Goal.target g)
          (clamp (Goal.current g + change) 0 (Goal.target g)).

(** The update moves [current] to [target] from strictly below. *)
Definition reaches_target (g : Goal.t) (change : Z) : Prop :=
  Goal.current (goal_after g change) = Goal.target g /\
  Goal.current g < Goal.target g.

(** A state with a single goal of target 10 and no progress. *)
Definition state_goal_10 : State :=
  set_goals [Goal.mk "1704240000000" "Build Portfolio" 10 0] getDefaultState.

(** A snapshot saved on 2024-01-02 with progress on two quests. *)
Definition saved_2024_01_02 : SavedState :=
  mkSaved (Some 40) (Some 1) None (Some "2024-01-02")
          (Some {[ "commit" := 1; "leetcode" := 1 ]}) None None
          (Some {[ "2024-01-01" := 2; "2024-01-02" := 1 ]})
          (Some ["first_quest"]) (Some 2).

(** The upper end of the progress range of a quest: 1 for a boolean quest,
    [max] for a counter (1 when [max] is missing, as the default parameter
    of [updateDailyProgress] has it). *)
Definition quest_bound (q : Quest.t) : Z :=
  match Quest.type q with
  | boolean => 1
  | counter => default 1 (Quest.max q)
  end.

(** The same range for the arguments [type] and [max] of a call. *)
Definition call_bound (type : option QuestType) (max : option Z) : Z :=
  match default counter type with
  | boolean => 1
  | counter => default 1 max
  end.

(** Every quest that a dailies view can show. *)
Definition all_quests (s : State) : list Quest.t :=
  DAILY_QUESTS_TEMPLATE ++ [PITCH_QUEST] ++ customQuests s.

Definition engine_invariant (s : State) : Prop :=
  0 <= xp s /\
  0 <= totalCompleted s /\
  (forall (date : string) (v : Z), history s !! date = Some v -> 0 <= v) /\
  Forall (fun g => 0 <= Goal.current g <= Goal.target g) (goals s) /\
  (forall (q : Quest.t) (v : Z),
     In q (all_quests s) -> dailies s !! Quest.id q = Some v ->
     0 <= v <= quest_bound q).

(** The call made by the buttons of the card of quest [q]. *)
Definition card_call (now : Date) (q : Quest.t) (change : Change) (s : State)
    : State :=
  fst (updateDailyProgress now (Quest.id q) change (Quest.xpPer q)
         (Some (Quest.type q))
         (match Quest.type q with boolean => None | counter => Quest.max q end)
         s).

(** A custom counter quest as the form builds it when -3 is typed into the
    [Max] field ([parseInt("-3") || 1] is [-3]), and the state after adding
    it to the default state. *)
Definition quest_negative_max : Quest.t :=
  Quest.mk "1704240000000" "Review Pull Requests" counter (Some (-3)) 20 true.

Definition state_negative_max : State :=
  fst (addCustomQuest 1704240000000 quest_negative_max getDefaultState).

(** ** The header, the views and the listeners *)

(** *** App.updateHeader *)




(** *** Date.setDate and the activity map of renderStatsView *)

Definition prev_month (y m : Z) : Z * Z :=
  if 0 <? m then (y, m - 1) else (y - 1, 11).

Definition next_month (y m : Z) : Z * Z :=
  if m <? 11 then (y, m + 1) else (y + 1, 0).

(** Day [n] of month [m] of year [y], where [n] may lie outside the month:
    day [0] is the last day of the month before, day [dim + 1] the first of
    the month after, and so on.  Each step moves [n] by a whole month, so
    [|n| + 1] steps of [fuel] always suffice (see [setDate_valid]). *)
Fixpoint setDate_norm (fuel : nat) (y m n : Z) : Date :=
  match fuel with
  | O => mkDate y m n
  | S fuel' =>
      if n <? 1 then
        let '(y', m') := prev_month y m in
        setDate_norm fuel' y' m' (n + days_in_month y' m')
      else if days_in_month y m <? n then
        let '(y', m') := next_month y m in
        setDate_norm fuel' y' m' (n - days_in_month y m)
      else mkDate y m n
  end.

(** [d.setDate(n)]. *)
Definition setDate (n : Z) (d : Date) : Date :=
  setDate_norm (Z.to_nat (Z.abs n) + 1) (getFullYear d) (getMonth d) n.

(** The [for] loop of [renderStatsView] with [i] cells left to push. *)
Fixpoint gridDays_loop (i : nat) (h : gmap string Z) (d : Date)
    : list (string * Z) :=
  match i with
  | O => []
  | S i' =>
      let dateStr := dateString d in
      (dateStr, get_or_0 h dateStr)
      :: gridDays_loop i' h (setDate (getDate d + 1) d)
  end.

(** [gridDays]: the cells [{ date, count }] of the last 28 days. *)
Definition gridDays (now : Date) (state : State) : list (string * Z) :=
  gridDays_loop 28 (history state) (setDate (getDate now - 27) now).

(** *** renderDailiesView: the quote of the day *)

Definition QUOTES : list (string * string) :=
  [ ("The only way to do great work is to love what you do.", "Steve Jobs");
    ("Code is like humor. When you have to explain it, it's bad.", "Cory House");
    ("First, solve the problem. Then, write the code.", "John Johnson");
    ("Experience is the name everyone gives to their mistakes.", "Oscar Wilde");
    ("In order to be irreplaceable, one must always be different.", "Coco Chanel");
    ("The best error message is the one that never shows up.", "Thomas Fuchs");
    ("Simplicity is the soul of efficiency.", "Austin Freeman");
    ("Make it work, make it right, make it fast.", "Kent Beck");
    ("Any fool can write code that a computer can understand. Good programmers write code that humans can understand.", "Martin Fowler");
    ("Talk is cheap. Show me the code.", "Linus Torvalds") ].

(** [QUOTES[new Date().getDate() % QUOTES.length]]; [None] is [undefined]. *)
Definition daily_quote (now : Date) : option (string * string) :=
  QUOTES !! Z.to_nat (getDate now mod Z.of_nat (length QUOTES)).

(** *** renderQuestCard: the buttons of a quest card *)

(** [quest.type === 'boolean' ? current === 1 : current === quest.max]. *)
Definition isCompleted (quest : Quest.t) (progress : gmap string Z) : bool :=
  let current := get_or_0 progress (Quest.id quest) in
  match Quest.type quest with
  | boolean => current =? 1
  | counter =>
      match Quest.max quest with
      | Some max => current =? max
      | None => false
      end
  end.

(** The button of a boolean card calls
    [updateDailyProgress(id, !isCompleted, xpPer, 'boolean')]. *)
Definition press_toggle (now : Date) (quest : Quest.t) (s : State) : State :=
  fst (updateDailyProgress now (Quest.id quest)
         (CBool (negb (isCompleted quest (dailies s)))) (Quest.xpPer quest)
         (Some boolean) None s).

(** The [-] button of a counter card is disabled when [current === 0]. *)
Definition press_minus (now : Date) (quest : Quest.t) (s : State) : State :=
  if get_or_0 (dailies s) (Quest.id quest) =? 0 then s
  else fst (updateDailyProgress now (Quest.id quest) (CNum (-1))
              (Quest.xpPer quest) (Some counter) (Quest.max quest) s).

(** The [+] button of a counter card is disabled when [isCompleted]. *)
Definition press_plus (now : Date) (quest : Quest.t) (s : State) : State :=
  if isCompleted quest (dailies s) then s
  else fst (updateDailyProgress now (Quest.id quest) (CNum 1)
              (Quest.xpPer quest) (Some counter) (Quest.max quest) s).

(** *** renderGoalCard: the buttons of a goal card *)



(** *** The custom-quest form *)

(** [parseInt(value) || dflt], where [None] is the [NaN] that [parseInt]
    gives for a value that does not start with a number. *)
Definition parsed_or (value : option Z) (dflt : Z) : Z :=
  match value with
  | Some n => if n =? 0 then dflt else n
  | None => dflt
  end.

(** The function [addCustomQuest()] of the form, on the trimmed title, the
    selected type and the two parsed number fields: an empty title is
    refused with an alert, and nothing else is checked. *)
Definition form_addCustomQuest (ms : Z) (title : string) (type : QuestType)
    (maxValue xpValue : option Z) (s : State) : State * list Notification :=
  let max := parsed_or maxValue 1 in
  let xpPer := parsed_or xpValue 20 in
  if String.eqb title "" then (s, [])
  else
    addCustomQuest ms
      (Quest.mk "" title type
                (Some (match type with counter => max | boolean => 1 end))
                xpPer true) s.

(** *** subscribe and notify *)

(** [this.listeners.push(listener)]. *)
Definition subscribe {L : Type} (listener : L) (listeners : list L) : list L :=
  listeners ++ [listener].

(** The function that [subscribe] returns:
    [this.listeners.filter(l => l !== listener)]. *)
Definition unsubscribe {L : Type} `{EqDecision L} (listener : L)
    (listeners : list L) : list L :=
  filter (fun l => l <> listener) listeners.

(** [notify]: the calls [listener(this.state)], in order. *)
Definition notify {L : Type} (listeners : list L) (state : State)
    : list (L * State) :=
  map (fun listener => (listener, state)) listeners.

(** *** Vocabulary of the further properties *)

(** The stored streak is the one that the stored history gives on the day
    [now]. *)
Definition streak_consistent (now : Date) (s : State) : Prop :=
  exists n : nat,
    currentStreak s = Z.of_nat n /\
    streak_run (history s) (streak_start (history s) now) n.

(** Six active days up to 2024-01-02, a stored streak of 6, and nothing
    done yet on 2024-01-03. *)
Definition state_six_days : State :=
  mkState 150 6 0 "2024-01-03" ∅ [] []
          {[ "2023-12-28" := 1; "2023-12-29" := 1; "2023-12-30" := 1;
             "2023-12-31" := 1; "2024-01-01" := 1; "2024-01-02" := 1;
             "2024-01-03" := 0 ]}
          ["first_quest"] 6.

(** A state with 1500 xp (level 4) and one goal that a single step
    completes. *)
Definition state_goal_1_of_1 : State :=
  set_xp 1500
    (set_goals [Goal.mk "1704240000000" "Ship it" 1 0] getDefaultState).

(** From [s] to [s'] the list of unlocked achievements only grows at its
    end, and stays free of repeats if it was. *)
Definition unlocked_grows (s s' : State) : Prop :=
  unlockedAchievements s `prefix_of` unlockedAchievements s' /\
  (NoDup (unlockedAchievements s) -> NoDup (unlockedAchievements s')).

(** From [s] to [s'] no history entry is removed, and the entries of the
    days other than [today] are the same. *)
Definition past_kept (today : string) (s s' : State) : Prop :=
  (forall date, is_Some (history s !! date) -> is_Some (history s' !! date)) /\
  (forall date, date <> today -> history s' !! date = history s !! date).

(** * Properties *)

(** ** Progression math *)

Example calculateLevel_1600 : calculateLevel 1600 = 5.
Proof. reflexivity. Qed.

Example xpForNextLevel_4 : xpForNextLevel 4 = 1600.
Proof. reflexivity. Qed.

(** The integer model is the floor of the real formula: the level [L] of
    [xp] is the one with [(L-1)^2 <= xp / 100 < L^2] over the reals. *)
Lemma calculateLevel_spec (xp : Z) :
  0 <= xp ->
  1 <= calculateLevel xp /\
  xpForNextLevel (calculateLevel xp - 1) <= xp < xpForNextLevel (calculateLevel xp).
Proof.
  intros Hxp. unfold calculateLevel, xpForNextLevel, BASE_XP.
  assert (Hq : 0 <= xp / 100) by (apply Z.div_pos; lia).
  pose proof (Z.sqrt_spec (xp / 100) Hq) as [Hlo Hhi].
  pose proof (Z.sqrt_nonneg (xp / 100)) as Hs.
  pose proof (Z.div_mod xp 100 ltac:(lia)) as Hdm.
  pose proof (Z.mod_pos_bound xp 100 ltac:(lia)) as Hm.
  set (r := Z.sqrt (xp / 100)) in *.
  replace (r + 1 - 1) with r by lia.
  rewrite !Z.pow_2_r. split; [lia | split; nia].
Qed.


Lemma calculateLevel_ge_iff (xp L : Z) :
  0 <= xp -> 1 <= L ->
  (L <= calculateLevel xp <-> xpForNextLevel (L - 1) <= xp).
Proof.
  intros Hxp HL. destruct (calculateLevel_spec xp Hxp) as (H1 & Hlo & Hhi).
  unfold xpForNextLevel, BASE_XP in *. rewrite !Z.pow_2_r in *.
  split; intros H; nia.
Qed.


(** ** Calendar dates *)

Example dateString_2024_01_03 : dateString (mkDate 2024 0 3) = "2024-01-03".
Proof. vm_compute. reflexivity. Qed.

Example setDate_prev_leap_day :
  dateString (setDate_prev (mkDate 2024 2 1)) = "2024-02-29".
Proof. vm_compute. reflexivity. Qed.

Example setDate_prev_new_year :
  dateString (setDate_prev (mkDate 2024 0 1)) = "2023-12-31".
Proof. vm_compute. reflexivity. Qed.

Lemma days_in_month_bounds (y m : Z) : 28 <= days_in_month y m <= 31.
Proof.
  unfold days_in_month.
  repeat match goal with |- context [if ?b then _ else _] => destruct b end; lia.
Qed.

Lemma setDate_prev_valid (d : Date) : valid_date d -> valid_date (setDate_prev d).
Proof.
  unfold valid_date, setDate_prev. intros [Hm Hd].
  destruct (Z.ltb_spec 1 (getDate d)); simpl; [lia |].
  destruct (Z.ltb_spec 0 (getMonth d)); simpl.
  - pose proof (days_in_month_bounds (getFullYear d) (getMonth d - 1)). lia.
  - unfold days_in_month. simpl. lia.
Qed.

Lemma setDate_prev_rank (d : Date) :
  valid_date d -> date_rank (setDate_prev d) < date_rank d.
Proof.
  unfold valid_date, setDate_prev, date_rank. intros [Hm Hd].
  destruct (Z.ltb_spec 1 (getDate d)); simpl; [lia |].
  destruct (Z.ltb_spec 0 (getMonth d)); simpl.
  - pose proof (days_in_month_bounds (getFullYear d) (getMonth d - 1)). lia.
  - lia.
Qed.

Lemma date_rank_lt (d1 d2 : Date) :
  valid_date d1 -> valid_date d2 ->
  (date_rank d1 < date_rank d2 <-> date_lt d1 d2).
Proof.
  unfold valid_date, date_rank, date_lt. intros [Hm1 Hd1] [Hm2 Hd2].
  pose proof (days_in_month_bounds (getFullYear d1) (getMonth d1)).
  pose proof (days_in_month_bounds (getFullYear d2) (getMonth d2)).
  lia.
Qed.

Lemma date_rank_inj (d1 d2 : Date) :
  valid_date d1 -> valid_date d2 -> date_rank d1 = date_rank d2 -> d1 = d2.
Proof.
  unfold valid_date, date_rank. destruct d1 as [y1 m1 a1], d2 as [y2 m2 a2].
  simpl. intros [Hm1 Hd1] [Hm2 Hd2] Heq.
  pose proof (days_in_month_bounds y1 m1). pose proof (days_in_month_bounds y2 m2).
  assert (y1 = y2) by lia. assert (m1 = m2) by lia. assert (a1 = a2) by lia.
  by subst.
Qed.

Lemma days_before_valid (k : nat) (d : Date) :
  valid_date d -> valid_date (days_before k d).
Proof.
  intros Hd. induction k as [| k IH]; [done |]. by apply setDate_prev_valid.
Qed.

Lemma days_before_S (k : nat) (d : Date) :
  days_before (S k) d = days_before k (setDate_prev d).
Proof. unfold days_before. by rewrite Nat.iter_succ_r. Qed.

Lemma days_before_rank (k : nat) (d : Date) :
  valid_date d -> date_rank (days_before k d) <= date_rank d - Z.of_nat k.
Proof.
  intros Hd. induction k as [| k IH]; [simpl; lia |].
  pose proof (setDate_prev_rank (days_before k d) (days_before_valid k d Hd)).
  change (days_before (S k) d) with (setDate_prev (days_before k d)). lia.
Qed.

(** *** [dateString] names each valid date once *)

Lemma string_app_length (s t : string) :
  String.length (s +:+ t) = (String.length s + String.length t)%nat.
Proof. induction s as [| c s IH]; simpl; [done | by rewrite IH]. Qed.

(** Two concatenations with tails of the same length agree part by part. *)
Lemma string_app_inj_tail (s1 s2 t1 t2 : string) :
  String.length t1 = String.length t2 ->
  s1 +:+ t1 = s2 +:+ t2 -> s1 = s2 /\ t1 = t2.
Proof.
  intros Hlen. revert s2.
  induction s1 as [| c1 s1 IH]; intros [| c2 s2] Heq; simpl in *.
  - done.
  - apply (f_equal String.length) in Heq.
    rewrite ?string_app_length in Heq. simpl in Heq. lia.
  - apply (f_equal String.length) in Heq.
    rewrite ?string_app_length in Heq. simpl in Heq. lia.
  - injection Heq as -> Heq. destruct (IH _ Heq) as [-> ->]. done.
Qed.

(** The days [1..31] (and so the months [1..12]) print as two characters
    each, all different: checked by evaluation over the range. *)
Lemma pad2_table :
  Forall (fun i =>
            String.length (pad2 i) = 2%nat /\
            Forall (fun j => pad2 i = pad2 j -> i = j) (seqZ 1 31))
         (seqZ 1 31).
Proof. apply (bool_decide_unpack _). vm_compute. exact I. Qed.

Lemma pad2_length (n : Z) : 1 <= n <= 31 -> String.length (pad2 n) = 2%nat.
Proof.
  intros Hn. pose proof pad2_table as H.
  rewrite Forall_forall in H. apply (H n). apply elem_of_seqZ. lia.
Qed.

Lemma pad2_inj (i j : Z) : 1 <= i <= 31 -> 1 <= j <= 31 -> pad2 i = pad2 j -> i = j.
Proof.
  intros Hi Hj. pose proof pad2_table as H.
  rewrite Forall_forall in H. destruct (H i) as [_ Hi'].
  { apply elem_of_seqZ. lia. }
  rewrite Forall_forall in Hi'. apply Hi'. apply elem_of_seqZ. lia.
Qed.

Lemma dateString_unfold (d : Date) :
  dateString d =
  pretty (getFullYear d) +:+ "-" +:+ pad2 (getMonth d + 1) +:+ "-" +:+ pad2 (getDate d).
Proof. reflexivity. Qed.

Lemma dateString_inj (d1 d2 : Date) :
  valid_date d1 -> valid_date d2 -> dateString d1 = dateString d2 -> d1 = d2.
Proof.
  destruct d1 as [y1 m1 a1], d2 as [y2 m2 a2]. unfold valid_date. simpl.
  intros [Hm1 Ha1] [Hm2 Ha2]. rewrite !dateString_unfold. simpl. intros Heq.
  pose proof (days_in_month_bounds y1 m1). pose proof (days_in_month_bounds y2 m2).
  assert (Lm1 := pad2_length (m1 + 1) ltac:(lia)).
  assert (Lm2 := pad2_length (m2 + 1) ltac:(lia)).
  assert (La1 := pad2_length a1 ltac:(lia)).
  assert (La2 := pad2_length a2 ltac:(lia)).
  apply (string_app_inj_tail (pretty y1) (pretty y2)) in Heq as [Hy Heq].
  2: { by rewrite !string_app_length, Lm1, Lm2, La1, La2. }
  simpl in Heq. injection Heq as Heq.
  apply (string_app_inj_tail (pad2 (m1 + 1)) (pad2 (m2 + 1))) in Heq as [Hm Heq].
  2: { by rewrite !string_app_length, La1, La2. }
  simpl in Heq. injection Heq as Ha.
  apply (inj pretty) in Hy. apply pad2_inj in Hm; [| lia | lia].
  apply pad2_inj in Ha; [| lia | lia].
  f_equal; lia.
Qed.

Lemma dateString_earlier_ne (d1 d2 : Date) :
  valid_date d1 -> valid_date d2 -> date_rank d1 < date_rank d2 ->
  dateString d1 <> dateString d2.
Proof.
  intros H1 H2 Hlt Heq. apply dateString_inj in Heq; [| done | done].
  subst. lia.
Qed.

(** ** updateStreak *)

Lemma updateStreak_loop_S (fuel : nat) (h : gmap string Z) (now d : Date)
    (count : Z) :
  updateStreak_loop (S fuel) h now d count =
  if active h (dateString d) then
    updateStreak_loop fuel h now (setDate_prev d) (count + 1)
  else if skips_today now d count then
    updateStreak_loop fuel h now (setDate_prev d) count
  else Some count.
Proof. reflexivity. Qed.

(** The loop started at [d] reads [h] at the strings of [d] and of earlier
    days only. *)
Lemma updateStreak_loop_ext (fuel : nat) (h h' : gmap string Z) (now d : Date)
    (count : Z) :
  valid_date d ->
  (forall d', valid_date d' -> date_rank d' <= date_rank d ->
              active h (dateString d') = active h' (dateString d')) ->
  updateStreak_loop fuel h now d count = updateStreak_loop fuel h' now d count.
Proof.
  revert d count. induction fuel as [| fuel IH]; intros d count Hd Hagree; [done |].
  rewrite !updateStreak_loop_S. rewrite <- (Hagree d Hd ltac:(lia)).
  assert (Hrec : forall c, updateStreak_loop fuel h now (setDate_prev d) c
                         = updateStreak_loop fuel h' now (setDate_prev d) c).
  { intros c. apply IH; [by apply setDate_prev_valid |].
    intros d' Hd' Hle. apply Hagree; [done |].
    pose proof (setDate_prev_rank d Hd). lia. }
  by rewrite !Hrec.
Qed.

(** More fuel than needed gives the same result. *)
Lemma updateStreak_loop_more_fuel (fuel k : nat) (h : gmap string Z)
    (now d : Date) (count r : Z) :
  updateStreak_loop fuel h now d count = Some r ->
  updateStreak_loop (fuel + k) h now d count = Some r.
Proof.
  revert d count. induction fuel as [| fuel IH]; intros d count; [done |].
  change (S fuel + k)%nat with (S (fuel + k)). rewrite !updateStreak_loop_S.
  destruct (active h (dateString d)); [apply IH |].
  destruct (skips_today now d count); [apply IH | done].
Qed.

(** The first iteration, at today, either counts today or skips it; in both
    cases the loop continues from yesterday. *)
Lemma updateStreak_loop_today (fuel : nat) (h : gmap string Z) (now : Date) :
  updateStreak_loop (S fuel) h now now 0 =
  updateStreak_loop fuel h now (setDate_prev now)
                    (if active h (dateString now) then 1 else 0).
Proof.
  rewrite updateStreak_loop_S. destruct (active h (dateString now)); [done |].
  unfold skips_today, getTodayString. by rewrite String.eqb_refl.
Qed.

Lemma streak_run_unique (h : gmap string Z) (start : Date) (n m : nat) :
  streak_run h start n -> streak_run h start m -> n = m.
Proof.
  intros [Hn En] [Hm Em].
  destruct (Nat.lt_trichotomy n m) as [Hlt | [Heq | Hlt]]; [| done |].
  - rewrite (Hm n Hlt) in En. done.
  - rewrite (Hn m Hlt) in Em. done.
Qed.

Lemma streak_run_S (h : gmap string Z) (d : Date) (n : nat) :
  active h (dateString d) = true ->
  streak_run h (setDate_prev d) n -> streak_run h d (S n).
Proof.
  intros Hact [Hall Hend]. split.
  - intros [| i] Hi; [done |]. rewrite days_before_S. apply Hall. lia.
  - by rewrite days_before_S.
Qed.

Section streak_of_a_day.

(** The clock of one call of [updateStreak]. *)
Context (now : Date) (Hnow : valid_date now).

(** Before today, no date string is today's. *)
Lemma not_today_before (d : Date) :
  valid_date d -> date_rank d < date_rank now ->
  String.eqb (dateString d) (getTodayString now) = false.
Proof.
  intros Hd Hlt. apply String.eqb_neq. by apply dateString_earlier_ne.
Qed.

Lemma skips_today_before (d : Date) (count : Z) :
  valid_date d -> date_rank d < date_rank now -> skips_today now d count = false.
Proof.
  intros Hd Hlt. unfold skips_today. rewrite not_today_before by done.
  apply andb_false_r.
Qed.

(** From a day before today the loop breaks within [size h + 1]
    iterations: each counted day uses up one entry of [h]. *)
Lemma updateStreak_loop_before_today (n : nat) (h : gmap string Z) (d : Date)
    (count : Z) :
  valid_date d -> date_rank d < date_rank now -> (size h <= n)%nat ->
  is_Some (updateStreak_loop (S n) h now d count).
Proof.
  revert h d count.
  induction n as [| n IH]; intros h d count Hd Hlt Hsize;
    rewrite updateStreak_loop_S.
  - assert (h = ∅) as -> by (apply map_size_empty_iff; lia).
    unfold active. rewrite lookup_empty, skips_today_before by done. by eexists.
  - destruct (active h (dateString d)) eqn:Hact.
    + unfold active in Hact.
      destruct (h !! dateString d) as [v |] eqn:Hv; [| done].
      pose proof (setDate_prev_valid d Hd) as Hpv.
      pose proof (setDate_prev_rank d Hd) as Hpr.
      rewrite (updateStreak_loop_ext (S n) h (delete (dateString d) h)).
      * apply IH; [done | lia |].
        pose proof (map_size_delete_Some (dateString d) h (mk_is_Some _ _ Hv)). lia.
      * done.
      * intros d' Hd' Hle. unfold active. rewrite lookup_delete_ne; [done |].
        apply not_eq_sym, dateString_earlier_ne; [done | done | lia].
    + rewrite skips_today_before by done. by eexists.
Qed.

(** The count added by the loop from a day before today is the length of
    the run of active days that starts there. *)
Lemma updateStreak_loop_run (fuel : nat) (h : gmap string Z) (d : Date)
    (count r : Z) :
  valid_date d -> date_rank d < date_rank now ->
  updateStreak_loop fuel h now d count = Some r ->
  exists n : nat, r = count + Z.of_nat n /\ streak_run h d n.
Proof.
  revert d count.
  induction fuel as [| fuel IH]; intros d count Hd Hlt Hrun; [done |].
  rewrite updateStreak_loop_S in Hrun.
  destruct (active h (dateString d)) eqn:Hact.
  - pose proof (setDate_prev_rank d Hd) as Hpr.
    destruct (IH _ _ (setDate_prev_valid d Hd) ltac:(lia) Hrun) as (n & -> & Hn).
    exists (S n). split; [lia | by apply streak_run_S].
  - rewrite skips_today_before in Hrun by done. injection Hrun as <-.
    exists 0%nat. split; [lia |]. split; [intros i Hi; lia | done].
Qed.

Lemma updateStreak_loop_terminates (h : gmap string Z) :
  is_Some (updateStreak_loop (streak_fuel h) h now now 0).
Proof.
  unfold streak_fuel.
  replace (size h + 2)%nat with (S (S (size h))) by lia.
  rewrite updateStreak_loop_today.
  apply updateStreak_loop_before_today; [by apply setDate_prev_valid | | done].
  by apply setDate_prev_rank.
Qed.

Lemma updateStreak_loop_result (h : gmap string Z) (r : Z) :
  updateStreak_loop (streak_fuel h) h now now 0 = Some r ->
  exists n : nat, r = Z.of_nat n /\ streak_run h (streak_start h now) n.
Proof.
  unfold streak_fuel.
  replace (size h + 2)%nat with (S (S (size h))) by lia.
  rewrite updateStreak_loop_today. intros Hrun.
  apply updateStreak_loop_run in Hrun as (n & -> & Hn);
    [| by apply setDate_prev_valid | by apply setDate_prev_rank].
  unfold streak_start. destruct (active h (dateString now)) eqn:Hact.
  - exists (S n). split; [lia | by apply streak_run_S].
  - exists n. split; [lia | done].
Qed.

Lemma updateStreak_sets (s : State) :
  updateStreak_loop (streak_fuel (history s)) (history s) now now 0
  = Some (currentStreak (updateStreak now s)).
Proof.
  unfold updateStreak.
  by destruct (updateStreak_loop_terminates (history s)) as [r ->].
Qed.

End streak_of_a_day.

Lemma updateStreak_frame (now : Date) (s : State) :
  xp (updateStreak now s) = xp s /\
  totalCompleted (updateStreak now s) = totalCompleted s /\
  goalsCompleted (updateStreak now s) = goalsCompleted s /\
  lastDate (updateStreak now s) = lastDate s /\
  dailies (updateStreak now s) = dailies s /\
  goals (updateStreak now s) = goals s /\
  customQuests (updateStreak now s) = customQuests s /\
  history (updateStreak now s) = history s /\
  unlockedAchievements (updateStreak now s) = unlockedAchievements s.
Proof.
  unfold updateStreak.
  by destruct (updateStreak_loop _ _ _ _ _).
Qed.

Example streak_example_skip_today :
  updateStreak_loop 5 (history state_streak_example) today_2024_01_03
                    today_2024_01_03 0 = Some 2.
Proof. vm_compute. reflexivity. Qed.

(** C1: [updateStreak] sets [currentStreak] to the number of consecutive
    calendar days with a strictly positive history entry, walking backward
    from today, where today is skipped without breaking the chain when it
    has no positive entry; that number is unique.  With history
    [{2024-01-01: 1, 2024-01-02: 1, 2024-01-03: 0}] and today 2024-01-03 the
    streak is 2; with [{2024-01-01: 1, 2024-01-02: 0, 2024-01-03: 1}] it
    is 1. *)
Theorem C1_updateStreak_counts_consecutive_days :
  (forall (s : State) (now : Date),
     valid_date now ->
     exists n : nat,
       currentStreak (updateStreak now s) = Z.of_nat n /\
       streak_run (history s) (streak_start (history s) now) n /\
       (forall m : nat,
          streak_run (history s) (streak_start (history s) now) m -> m = n)) /\
  (forall s : State,
     history s = {[ "2024-01-01" := 1; "2024-01-02" := 1; "2024-01-03" := 0 ]} ->
     currentStreak (updateStreak (mkDate 2024 0 3) s) = 2) /\
  (forall s : State,
     history s = {[ "2024-01-01" := 1; "2024-01-02" := 0; "2024-01-03" := 1 ]} ->
     currentStreak (updateStreak (mkDate 2024 0 3) s) = 1).
Proof.
  split; [| split].
  - intros s now Hnow.
    pose proof (updateStreak_sets now Hnow s) as Hrun.
    apply (updateStreak_loop_result now Hnow) in Hrun as (n & Hn & Hspec).
    exists n. split; [done |]. split; [done |].
    intros m Hm. by apply (streak_run_unique _ _ _ _ Hm Hspec).
  - intros s Hh. unfold updateStreak. rewrite Hh. vm_compute. reflexivity.
  - intros s Hh. unfold updateStreak. rewrite Hh. vm_compute. reflexivity.
Qed.

Lemma C1_witness :
  valid_date today_2024_01_03 /\
  exists n : nat,
    currentStreak (updateStreak today_2024_01_03 state_streak_example)
    = Z.of_nat n /\
    streak_run (history state_streak_example)
               (streak_start (history state_streak_example) today_2024_01_03) n.
Proof.
  split; [unfold valid_date; cbn; lia |].
  destruct (proj1 C1_updateStreak_counts_consecutive_days
                  state_streak_example today_2024_01_03) as (n & Hn & Hrun & _).
  - unfold valid_date. cbn. lia.
  - exists n. split; [exact Hn | exact Hrun].
Defined.

(** C10: [updateStreak] terminates on every state: from a valid today the
    loop reaches its [break] within [size history + 2] iterations (and more
    fuel does not change the result); each iteration moves to a strictly
    earlier date; the today-skip test is false on every iteration after the
    first; and from the second iteration on, the loop breaks at the first
    date without a positive entry. *)
Theorem C10_updateStreak_terminates (s : State) (now : Date) :
  valid_date now ->
  (exists r : Z,
     updateStreak_loop (size (history s) + 2) (history s) now now 0 = Some r /\
     forall k : nat,
       updateStreak_loop (size (history s) + 2 + k) (history s) now now 0 = Some r) /\
  (forall d : Date,
     valid_date d -> valid_date (setDate_prev d) /\ date_lt (setDate_prev d) d) /\
  (forall (k : nat) (count : Z),
     (1 <= k)%nat -> skips_today now (days_before k now) count = false) /\
  (forall (k fuel : nat) (count : Z),
     (1 <= k)%nat ->
     active (history s) (dateString (days_before k now)) = false ->
     updateStreak_loop (S fuel) (history s) now (days_before k now) count
     = Some count).
Proof.
  intros Hnow.
  assert (Hskip : forall (k : nat) (count : Z),
             (1 <= k)%nat -> skips_today now (days_before k now) count = false).
  { intros k count Hk.
    apply skips_today_before; [done | by apply days_before_valid |].
    pose proof (days_before_rank k now Hnow). lia. }
  split; [| split; [| split]].
  - destruct (updateStreak_loop_terminates now Hnow (history s)) as [r Hr].
    exists r. split; [done |]. intros k.
    by apply updateStreak_loop_more_fuel.
  - intros d Hd. pose proof (setDate_prev_valid d Hd) as Hp.
    split; [done |]. apply date_rank_lt; [done | done |].
    by apply setDate_prev_rank.
  - done.
  - intros k fuel count Hk Hact.
    by rewrite updateStreak_loop_S, Hact, Hskip.
Qed.

Lemma C10_witness :
  valid_date today_2024_01_03 /\
  exists r : Z,
    updateStreak_loop (size (history state_streak_example) + 2)
                      (history state_streak_example) today_2024_01_03
                      today_2024_01_03 0 = Some r.
Proof.
  split; [unfold valid_date; cbn; lia |].
  destruct (C10_updateStreak_terminates state_streak_example today_2024_01_03)
    as [[r [Hr _]] _].
  - unfold valid_date. cbn. lia.
  - exists r. exact Hr.
Defined.

(** ** checkAchievements *)

(** No predicate of the list reads [unlockedAchievements]. *)
Lemma condition_ignores_unlocked (a : Achievement.t) (l : list string) (s : State) :
  In a ACHIEVEMENTS ->
  Achievement.condition a (set_unlockedAchievements l s) = Achievement.condition a s.
Proof.
  unfold ACHIEVEMENTS. simpl.
  intros H. repeat (destruct H as [Ha | H]; [by rewrite <- Ha |]). destruct H.
Qed.

Lemma ACHIEVEMENTS_ids_NoDup : NoDup (map Achievement.id ACHIEVEMENTS).
Proof. apply (bool_decide_unpack _). vm_compute. exact I. Qed.

Lemma includes_app_other (l : list string) (x y : string) :
  x <> y -> includes (l ++ [x]) y = includes l y.
Proof.
  intros Hne. unfold includes. apply bool_decide_ext.
  rewrite elem_of_app, list_elem_of_singleton.
  split; [intros [Hin | Heq]; [done | congruence] | by left].
Qed.

Lemma set_unlockedAchievements_twice (l l' : list string) (s : State) :
  set_unlockedAchievements l (set_unlockedAchievements l' s)
  = set_unlockedAchievements l s.
Proof. reflexivity. Qed.

(** The fold over any duplicate-free part of the list, in closed form. *)
Lemma fold_check_achievement (l : list Achievement.t) (s : State)
    (out : list Notification) :
  NoDup (map Achievement.id l) ->
  (forall a, In a l -> In a ACHIEVEMENTS) ->
  let new :=
    List.filter
      (fun a => Achievement.condition a s
                && negb (includes (unlockedAchievements s) (Achievement.id a))) l in
  fold_left check_achievement l (s, out) =
  (set_unlockedAchievements
     (unlockedAchievements s ++ map Achievement.id new) s,
   out ++ map (fun a => showAchievementNotification (Achievement.name a)) new).
Proof.
  revert s out. induction l as [| a l IH]; intros s out Hnd Hsub; simpl.
  - rewrite !app_nil_r. by destruct s.
  - apply NoDup_cons in Hnd as [Hnotin Hnd].
    assert (Hsub' : forall a', In a' l -> In a' ACHIEVEMENTS)
      by (intros a' Ha'; apply Hsub; by right).
    destruct (Achievement.condition a s
              && negb (includes (unlockedAchievements s) (Achievement.id a))) eqn:Hc.
    + rewrite (IH _ _ Hnd Hsub'). simpl.
      assert (Hfilter :
        List.filter
          (fun a' =>
             Achievement.condition a'
               (set_unlockedAchievements
                  (unlockedAchievements s ++ [Achievement.id a]) s)
             && negb (includes (unlockedAchievements s ++ [Achievement.id a])
                               (Achievement.id a'))) l
        = List.filter
            (fun a' =>
               Achievement.condition a' s
               && negb (includes (unlockedAchievements s) (Achievement.id a'))) l).
      { apply List.filter_ext_in. intros a' Ha'.
        rewrite condition_ignores_unlocked by (by apply Hsub').
        rewrite includes_app_other; [done |].
        intros Heq. apply Hnotin. rewrite Heq.
        apply list_elem_of_In, in_map, Ha'. }
      rewrite Hfilter, set_unlockedAchievements_twice.
      by rewrite <- !app_assoc.
    + apply (IH _ _ Hnd Hsub').
Qed.

Lemma checkAchievements_closed (s : State) :
  checkAchievements s =
  (set_unlockedAchievements
     (unlockedAchievements s ++ map Achievement.id (newly_unlocked s)) s,
   map (fun a => showAchievementNotification (Achievement.name a))
       (newly_unlocked s)).
Proof.
  unfold checkAchievements, newly_unlocked.
  rewrite fold_check_achievement;
    [done | apply ACHIEVEMENTS_ids_NoDup | done].
Qed.

Lemma appended_closed (s : State) :
  appended s = map Achievement.id (newly_unlocked s).
Proof.
  unfold appended. rewrite checkAchievements_closed. simpl.
  by rewrite drop_app_length.
Qed.

Lemma checkAchievements_frame (s : State) :
  let s' := fst (checkAchievements s) in
  xp s' = xp s /\ totalCompleted s' = totalCompleted s /\
  goalsCompleted s' = goalsCompleted s /\ lastDate s' = lastDate s /\
  dailies s' = dailies s /\ goals s' = goals s /\
  customQuests s' = customQuests s /\ history s' = history s /\
  currentStreak s' = currentStreak s.
Proof. rewrite checkAchievements_closed. simpl. done. Qed.

(** Name the result of the call of [checkAchievements] in the goal and
    record what it leaves unchanged. *)
Ltac checkAchievements_as s1 out Hframe :=
  match goal with
  | |- context [checkAchievements ?st] =>
      pose proof (checkAchievements_frame st) as Hframe;
      destruct (checkAchievements st) as [s1 out]
  end.

Lemma elem_of_newly_unlocked (a : Achievement.t) (s : State) :
  In a (newly_unlocked s) <->
  In a ACHIEVEMENTS /\ Achievement.condition a s = true /\
  Achievement.id a ∉ unlockedAchievements s.
Proof.
  unfold newly_unlocked. rewrite List.filter_In, andb_true_iff, negb_true_iff.
  unfold includes. rewrite bool_decide_eq_false. tauto.
Qed.

(** After an evaluation nothing is newly unlocked. *)
Lemma newly_unlocked_after (s : State) :
  newly_unlocked (fst (checkAchievements s)) = [].
Proof.
  destruct (newly_unlocked (fst (checkAchievements s))) as [| a l] eqn:Hnew; [done |].
  assert (Ha : In a (newly_unlocked (fst (checkAchievements s))))
    by (rewrite Hnew; by left).
  apply elem_of_newly_unlocked in Ha as (Hin & Hcond & Hfresh).
  rewrite checkAchievements_closed in Hcond, Hfresh. simpl in Hcond, Hfresh.
  rewrite condition_ignores_unlocked in Hcond by done.
  exfalso. apply Hfresh. apply elem_of_app.
  destruct (decide (Achievement.id a ∈ unlockedAchievements s)) as [| Hno];
    [by left | right].
  apply list_elem_of_In, in_map. by apply elem_of_newly_unlocked.
Qed.

Lemma set_unlockedAchievements_same (s : State) :
  set_unlockedAchievements (unlockedAchievements s) s = s.
Proof. by destruct s. Qed.

Lemma checkAchievements_idempotent (s : State) :
  checkAchievements (fst (checkAchievements s)) = (fst (checkAchievements s), []).
Proof.
  rewrite (checkAchievements_closed (fst (checkAchievements s))).
  rewrite newly_unlocked_after. simpl.
  by rewrite app_nil_r, set_unlockedAchievements_same.
Qed.

Lemma NoDup_map_filter {A B : Type} (f : A -> B) (p : A -> bool) (l : list A) :
  NoDup (map f l) -> NoDup (map f (List.filter p l)).
Proof.
  induction l as [| a l IH]; simpl; [done |].
  intros [Hnotin Hnd]%NoDup_cons. destruct (p a); simpl; [| by apply IH].
  apply NoDup_cons. split; [| by apply IH].
  intros Hin. apply Hnotin. apply list_elem_of_In in Hin.
  apply in_map_iff in Hin as (x & Hx & Hin). apply List.filter_In in Hin as [Hin _].
  apply list_elem_of_In, in_map_iff. eauto.
Qed.

Lemma appended_NoDup (s : State) : NoDup (appended s).
Proof.
  rewrite appended_closed. apply NoDup_map_filter, ACHIEVEMENTS_ids_NoDup.
Qed.

Example appended_state_xp_1600 : appended state_xp_1600 = ["level_5"].
Proof. vm_compute. reflexivity. Qed.

(** C8: an evaluation keeps the old list as a prefix and only appends to
    it; what it appends are, in the order of [ACHIEVEMENTS] and each once,
    the identifiers whose predicate holds and that were not present; one
    pop-up is scheduled per appended identifier; and a second evaluation
    changes nothing and schedules nothing. *)
Theorem C8_checkAchievements_append_only (s : State) :
  let s' := fst (checkAchievements s) in
  unlockedAchievements s' = unlockedAchievements s ++ appended s /\
  (forall x, x ∈ appended s ->
     exists a, In a ACHIEVEMENTS /\ Achievement.id a = x /\
               Achievement.condition a s = true /\
               x ∉ unlockedAchievements s) /\
  appended s =
    map Achievement.id
        (List.filter
           (fun a => Achievement.condition a s
                     && negb (includes (unlockedAchievements s) (Achievement.id a)))
           ACHIEVEMENTS) /\
  NoDup (appended s) /\
  snd (checkAchievements s) =
    map (fun a => showAchievementNotification (Achievement.name a))
        (newly_unlocked s) /\
  checkAchievements s' = (s', []).
Proof.
  simpl. split; [| split; [| split; [| split; [| split]]]].
  - rewrite appended_closed. by rewrite checkAchievements_closed.
  - intros x Hx. rewrite appended_closed in Hx.
    apply list_elem_of_In, in_map_iff in Hx as (a & Hid & Ha).
    apply elem_of_newly_unlocked in Ha as (Hin & Hcond & Hfresh).
    exists a. by rewrite <- Hid.
  - apply appended_closed.
  - apply appended_NoDup.
  - by rewrite checkAchievements_closed.
  - apply checkAchievements_idempotent.
Qed.

(** *** The achievement [level_5] *)

Lemma level_5_entry (a : Achievement.t) (s : State) :
  In a ACHIEVEMENTS ->
  Achievement.id a = "level_5" \/ Achievement.name a = "Rising Developer" ->
  Achievement.id a = "level_5" /\
  Achievement.condition a s = (5 <=? calculateLevel (xp s)).
Proof.
  unfold ACHIEVEMENTS. simpl. intros H Hkey.
  repeat (destruct H as [Ha | H];
          [rewrite <- Ha in *; simpl in *;
           first [done | by destruct Hkey] |]).
  destruct H.
Qed.

Lemma level_5_appended_iff (s : State) :
  "level_5" ∈ appended s <->
  5 <= calculateLevel (xp s) /\ "level_5" ∉ unlockedAchievements s.
Proof.
  rewrite appended_closed, list_elem_of_In, in_map_iff. split.
  - intros (a & Hid & Ha).
    apply elem_of_newly_unlocked in Ha as (Hin & Hcond & Hfresh).
    destruct (level_5_entry a s Hin (or_introl Hid)) as [_ Hc].
    rewrite Hc in Hcond. rewrite Hid in Hfresh. split; [lia | done].
  - intros [Hlvl Hfresh].
    exists (Achievement.mk "level_5" "Rising Developer"
                           (fun state => 5 <=? calculateLevel (xp state))).
    split; [done |]. apply elem_of_newly_unlocked. simpl.
    split; [unfold ACHIEVEMENTS; simpl; tauto |]. split; [lia | done].
Qed.

Lemma level_5_threshold (x : Z) :
  5 <= calculateLevel x <-> xpForNextLevel 4 <= x.
Proof.
  destruct (Z.le_gt_cases 0 x) as [Hx | Hx].
  - by apply (calculateLevel_ge_iff x 5).
  - unfold calculateLevel, xpForNextLevel, BASE_XP.
    assert (x / 100 < 0) by (apply Z.div_lt_upper_bound; lia).
    rewrite Z.sqrt_neg by done. lia.
Qed.

(** C2, as amended: an evaluation appends [level_5] exactly when the level
    of the cumulative xp is at least 5, which is when [xp] has reached
    [xpForNextLevel 4 = 1600], and [level_5] is not already present; once
    present it is neither appended nor announced again, and no evaluation
    appends it twice. *)
Theorem C2_level_5_unlocks_at_level_5 (s : State) :
  ("level_5" ∈ appended s <->
   xpForNextLevel 4 <= xp s /\ "level_5" ∉ unlockedAchievements s) /\
  xpForNextLevel 4 = 1600 /\
  (5 <= calculateLevel (xp s) <-> xpForNextLevel 4 <= xp s) /\
  ("level_5" ∈ unlockedAchievements s ->
   ("level_5" ∉ appended s) /\
   (showAchievementNotification "Rising Developer" ∉ snd (checkAchievements s))) /\
  ("level_5" ∉ appended (fst (checkAchievements s))) /\
  NoDup (appended s).
Proof.
  split; [| split; [| split; [| split; [| split]]]].
  - rewrite level_5_appended_iff. by rewrite level_5_threshold.
  - reflexivity.
  - apply level_5_threshold.
  - intros Hin. split.
    + rewrite level_5_appended_iff. tauto.
    + rewrite checkAchievements_closed. simpl.
      rewrite list_elem_of_In, in_map_iff. intros (a & Hname & Ha).
      apply elem_of_newly_unlocked in Ha as (Ha & _ & Hfresh).
      injection Hname as Hname.
      destruct (level_5_entry a s Ha (or_intror Hname)) as [Hid _].
      by rewrite Hid in Hfresh.
  - rewrite appended_closed, newly_unlocked_after. simpl. apply not_elem_of_nil.
  - apply appended_NoDup.
Qed.

(** C2 as stated fails: at 1600 xp, below [xpForNextLevel 5 = 2500], the
    evaluation already appends [level_5]. *)
Lemma C2_counterexample :
  ~ (forall s : State,
       "level_5" ∈ appended s <->
       xpForNextLevel 5 <= xp s /\ "level_5" ∉ unlockedAchievements s).
Proof.
  intros H. destruct (H state_xp_1600) as [Hto _].
  rewrite appended_state_xp_1600 in Hto.
  destruct Hto as [Hxp _]; [apply list_elem_of_singleton; reflexivity |].
  vm_compute in Hxp. by apply Hxp.
Qed.

(** ** updateDailyProgress *)

(** The fields of the state after [updateDailyProgress], in terms of the
    triple computed by [progress_delta]. *)
Lemma updateDailyProgress_fields (now : Date) (questId : string)
    (change : Change) (xpGain : Z) (type : option QuestType) (max : option Z)
    (s : State) (newProgress actualXpGain completedInc : Z) :
  progress_delta (get_or_0 (dailies s) questId) change xpGain
                 (default counter type) (default 1 max)
  = (newProgress, actualXpGain, completedInc) ->
  let s' := fst (updateDailyProgress now questId change xpGain type max s) in
  xp s' = Z.max 0 (xp s + actualXpGain) /\
  totalCompleted s' = Z.max 0 (totalCompleted s + completedInc) /\
  dailies s' = <[questId := newProgress]> (dailies s) /\
  history s' =
    <[getTodayString now :=
        Z.max 0 (get_or_0 (history s) (getTodayString now) + completedInc)]>
      (history s) /\
  goals s' = goals s /\ customQuests s' = customQuests s /\
  goalsCompleted s' = goalsCompleted s /\ lastDate s' = lastDate s.
Proof.
  intros Hdelta. unfold updateDailyProgress. rewrite Hdelta.
  checkAchievements_as s1 out Hframe.
  simpl in Hframe. simpl.
  pose proof (updateStreak_frame now s1) as Hstreak.
  intuition congruence.
Qed.

Lemma get_or_0_insert (m : gmap string Z) (k : string) (v : Z) :
  get_or_0 (<[k := v]> m) k = v.
Proof. unfold get_or_0. by rewrite lookup_insert_eq. Qed.

Lemma get_or_0_insert_ne (m : gmap string Z) (k k' : string) (v : Z) :
  k <> k' -> get_or_0 (<[k := v]> m) k' = get_or_0 m k'.
Proof. intros Hne. unfold get_or_0. by rewrite lookup_insert_ne. Qed.

(** *** Boolean quests *)

Lemma toggle_fields (now : Date) (questId : string) (target : bool) (xpPer : Z)
    (s : State) :
  let p := get_or_0 (dailies s) questId in
  let t := if target then 1 else 0 in
  let '(g, c) :=
    if (t =? 1) && (p =? 0) then (xpPer, 1)
    else if (t =? 0) && (p =? 1) then (- xpPer, -1)
    else (0, 0) in
  let s' := toggle now questId target xpPer s in
  xp s' = Z.max 0 (xp s + g) /\
  totalCompleted s' = Z.max 0 (totalCompleted s + c) /\
  get_or_0 (dailies s') questId = t /\
  history s' =
    <[getTodayString now := Z.max 0 (get_or_0 (history s) (getTodayString now) + c)]>
      (history s).
Proof.
  simpl. unfold toggle.
  set (p := get_or_0 (dailies s) questId).
  set (t := if target then 1 else 0).
  destruct ((t =? 1) && (p =? 0)) eqn:Hon;
    [| destruct ((t =? 0) && (p =? 1)) eqn:Hoff].
  - destruct (updateDailyProgress_fields now questId (CBool target) xpPer
                (Some boolean) None s t xpPer 1) as (Hx & Ht & Hd & Hh & _).
    { simpl. fold p t. by rewrite Hon. }
    rewrite Hx, Ht, Hd, Hh. by rewrite get_or_0_insert.
  - destruct (updateDailyProgress_fields now questId (CBool target) xpPer
                (Some boolean) None s t (- xpPer) (-1)) as (Hx & Ht & Hd & Hh & _).
    { simpl. fold p t. by rewrite Hon, Hoff. }
    rewrite Hx, Ht, Hd, Hh. by rewrite get_or_0_insert.
  - destruct (updateDailyProgress_fields now questId (CBool target) xpPer
                (Some boolean) None s t 0 0) as (Hx & Ht & Hd & Hh & _).
    { simpl. fold p t. by rewrite Hon, Hoff. }
    rewrite Hx, Ht, Hd, Hh. by rewrite get_or_0_insert.
Qed.






(** *** Counter quests *)

(** The two [if] statements of the counter branch compute
    [completion_delta]: their tests exclude each other. *)
Lemma progress_delta_counter (p : Z) (change : Change) (xpGain max : Z) :
  let newProgress := clamp (p + toNumber change) 0 max in
  progress_delta p change xpGain counter max
  = (newProgress, (newProgress - p) * xpGain, completion_delta p newProgress max).
Proof.
  simpl. unfold completion_delta, clamp.
  set (np := Z.max 0 (Z.min max (p + toNumber change))).
  destruct (Z.eqb_spec np max), (Z.ltb_spec p max), (Z.ltb_spec np max),
    (Z.eqb_spec p max); simpl; try reflexivity; lia.
Qed.


Lemma count_by_fields (now : Date) (questId : string) (change xpPer max : Z)
    (s : State) :
  let p := get_or_0 (dailies s) questId in
  let newProgress := clamp (p + change) 0 max in
  let d := completion_delta p newProgress max in
  let s' := count_by now questId change xpPer max s in
  dailies s' = <[questId := newProgress]> (dailies s) /\
  xp s' = Z.max 0 (xp s + (newProgress - p) * xpPer) /\
  totalCompleted s' = Z.max 0 (totalCompleted s + d) /\
  history s' =
    <[getTodayString now := Z.max 0 (get_or_0 (history s) (getTodayString now) + d)]>
      (history s).
Proof.
  cbv zeta. unfold count_by.
  destruct (updateDailyProgress_fields now questId (CNum change) xpPer
              (Some counter) (Some max) s _ _ _
              (progress_delta_counter _ (CNum change) xpPer max))
    as (Hx & Ht & Hd & Hh & _).
  cbv zeta in *. by rewrite Hx, Ht, Hd, Hh.
Qed.

Example count_by_after_midnight :
  get_or_0 (history (count_by today_2024_01_03 "leetcode" (-1) 15 5
                              state_after_midnight)) "2024-01-03" = 0.
Proof. vm_compute. reflexivity. Qed.




(** ** updateGoal *)

Lemma updateGoal_absent (id : string) (change : Z) (s : State) :
  list_find (fun g => Goal.id g = id) (goals s) = None ->
  updateGoal id change s = (s, []).
Proof. intros H. unfold updateGoal. by rewrite H. Qed.

(** One update of the goal found at index [i]: the goal stays where it is
    with its new [current], and the bonus is granted on reaching the
    target. *)
Lemma updateGoal_found (id : string) (change : Z) (s : State) (i : nat)
    (g : Goal.t) :
  list_find (fun g => Goal.id g = id) (goals s) = Some (i, g) ->
  let s' := fst (updateGoal id change s) in
  let completedNow :=
    (Goal.current (goal_after g change) =? Goal.target g)
    && (Goal.current g <? Goal.target g) in
  goals s' = <[i := goal_after g change]> (goals s) /\
  list_find (fun g => Goal.id g = id) (goals s') = Some (i, goal_after g change) /\
  xp s' = xp s + (if completedNow then 200 else 0) /\
  goalsCompleted s' = goalsCompleted s + (if completedNow then 1 else 0) /\
  totalCompleted s' = totalCompleted s /\ history s' = history s /\
  dailies s' = dailies s /\ customQuests s' = customQuests s.
Proof.
  intros Hfind. simpl. unfold updateGoal. rewrite Hfind.
  fold (clamp (Goal.current g + change) 0 (Goal.target g)).
  fold (goal_after g change).
  change (clamp (Goal.current g + change) 0 (Goal.target g))
    with (Goal.current (goal_after g change)).
  assert (Hfind' :
    list_find (fun g0 => Goal.id g0 = id) (<[i := goal_after g change]> (goals s))
    = Some (i, goal_after g change)).
  { apply list_find_Some in Hfind as (Hi & Hid & Hbefore).
    apply list_find_Some. split; [| split].
    - apply list_lookup_insert_eq. by apply lookup_lt_Some in Hi.
    - done.
    - intros j y Hj Hlt. rewrite list_lookup_insert_ne in Hj by lia.
      by apply (Hbefore j). }
  destruct ((Goal.current (goal_after g change) =? Goal.target g)
            && (Goal.current g <? Goal.target g));
    checkAchievements_as s1 out Hframe; simpl in *;
    destruct Hframe as (-> & -> & -> & _ & -> & -> & -> & -> & _);
    rewrite ?Z.add_0_r; done.
Qed.

Lemma completedNow_reaches_target (g : Goal.t) (change : Z) :
  (Goal.current (goal_after g change) =? Goal.target g)
  && (Goal.current g <? Goal.target g) = true
  <-> reaches_target g change.
Proof.
  unfold reaches_target. rewrite andb_true_iff, Z.eqb_eq, Z.ltb_lt. done.
Qed.


Example updateGoal_four_increments :
  let s3 := fst (updateGoal "1704240000000" 3
              (fst (updateGoal "1704240000000" 3
                 (fst (updateGoal "1704240000000" 3 state_goal_10))))) in
  let s4 := fst (updateGoal "1704240000000" 1 s3) in
  (xp s3, goalsCompleted s3, xp s4, goalsCompleted s4) = (0, 0, 200, 1).
Proof. vm_compute. reflexivity. Qed.



(** ** init *)

Example init_saved_2024_01_02 :
  let s' := init (Some saved_2024_01_02) today_2024_01_03 in
  (lastDate s', dailies s', history s' !! "2024-01-03", history s' !! "2024-01-02",
   currentStreak s')
  = ("2024-01-03", ∅, Some 0, Some 1, 2).
Proof. vm_compute. reflexivity. Qed.

(** C6: when the loaded state has a [lastDate] other than today, [init]
    sets [lastDate] to today, empties [dailies], gives today a history
    entry of 0 if it has none, keeps an entry that today already has, and
    keeps the entry of every other date. *)
Theorem C6_init_daily_rollover (savedState : option SavedState) (now : Date) :
  let s := loaded savedState in
  let today := getTodayString now in
  lastDate s <> today ->
  let s' := init savedState now in
  lastDate s' = today /\
  dailies s' = ∅ /\
  (history s !! today = None -> history s' !! today = Some 0) /\
  (forall v, history s !! today = Some v -> history s' !! today = Some v) /\
  (forall date, date <> today -> history s' !! date = history s !! date).
Proof.
  simpl. intros Hne. unfold init, daily_reset.
  apply String.eqb_neq in Hne. rewrite Hne. simpl.
  match goal with
  | |- context [updateStreak now ?st] =>
      destruct (updateStreak_frame now st) as (_ & _ & _ & -> & -> & _ & _ & -> & _)
  end.
  unfold get_or_0.
  destruct (history (loaded savedState) !! getTodayString now) as [v |] eqn:Hv;
    simpl.
  - destruct (Z.eqb_spec v 0) as [-> | Hv0]; simpl.
    + split; [done |]. split; [done |]. split; [done |].
      split; [intros v [= <-]; apply lookup_insert_eq |].
      intros date Hd. by rewrite lookup_insert_ne.
    + rewrite Hv. done.
  - split; [done |]. split; [done |].
    split; [intros _; apply lookup_insert_eq |].
    split; [done |]. intros date Hd. by rewrite lookup_insert_ne.
Qed.

Lemma C6_witness :
  lastDate (loaded (Some saved_2024_01_02)) <> getTodayString today_2024_01_03 /\
  lastDate (init (Some saved_2024_01_02) today_2024_01_03)
  = getTodayString today_2024_01_03.
Proof.
  split; [vm_compute; discriminate |].
  apply (C6_init_daily_rollover (Some saved_2024_01_02) today_2024_01_03).
  vm_compute. discriminate.
Defined.

(** ** The invariant of the engine *)

Lemma progress_delta_range (p : Z) (change : Change) (xpGain : Z)
    (type : option QuestType) (max : option Z) (np g c : Z) :
  progress_delta p change xpGain (default counter type) (default 1 max)
  = (np, g, c) ->
  0 <= call_bound type max -> 0 <= np <= call_bound type max.
Proof.
  unfold call_bound, progress_delta.
  destruct (default counter type).
  - destruct (truthy change); simpl;
      repeat match goal with
             | |- context [if ?b then _ else _] => destruct b
             end; intros [= <- _ _]; lia.
  - intros [= <- _ _]. lia.
Qed.

Lemma engine_invariant_updateDailyProgress (now : Date) (questId : string)
    (change : Change) (xpGain : Z) (type : option QuestType) (max : option Z)
    (s : State) :
  engine_invariant s ->
  0 <= call_bound type max ->
  (forall q, In q (all_quests s) -> Quest.id q = questId ->
             quest_bound q = call_bound type max) ->
  engine_invariant (fst (updateDailyProgress now questId change xpGain type max s)).
Proof.
  intros (Hxp & Htc & Hh & Hg & Hd) Hbound Hsame.
  destruct (progress_delta (get_or_0 (dailies s) questId) change xpGain
              (default counter type) (default 1 max)) as [[np g] c] eqn:Hdelta.
  destruct (updateDailyProgress_fields now questId change xpGain type max s
              np g c Hdelta) as (Ex & Et & Ed & Eh & Eg & Eq & _).
  pose proof (progress_delta_range _ _ _ _ _ _ _ _ Hdelta Hbound) as Hnp.
  unfold engine_invariant, all_quests. rewrite Ex, Et, Ed, Eh, Eg, Eq.
  split; [lia |]. split; [lia |]. split; [| split; [done |]].
  - intros date v. destruct (decide (getTodayString now = date)) as [<- | Hne].
    + rewrite lookup_insert_eq. intros [= <-]. lia.
    + rewrite lookup_insert_ne by done. apply Hh.
  - intros q v Hq. destruct (decide (questId = Quest.id q)) as [Heq | Hne].
    + rewrite <- Heq, lookup_insert_eq. intros [= <-].
      rewrite (Hsame q Hq (eq_sym Heq)). done.
    + rewrite lookup_insert_ne by done. by apply Hd.
Qed.

Lemma engine_invariant_addGoal (ms : Z) (title : string) (target : Z) (s : State) :
  engine_invariant s -> 0 <= target ->
  engine_invariant (addGoal ms title target s).
Proof.
  intros (Hxp & Htc & Hh & Hg & Hd) Ht. unfold engine_invariant, addGoal. simpl.
  split; [done |]. split; [done |]. split; [done |]. split; [| done].
  apply Forall_app. split; [done |]. apply Forall_singleton. simpl. lia.
Qed.

Lemma engine_invariant_updateGoal (id : string) (change : Z) (s : State) :
  engine_invariant s -> engine_invariant (fst (updateGoal id change s)).
Proof.
  intros Hinv.
  destruct (list_find (fun g => Goal.id g = id) (goals s)) as [[i g] |] eqn:Hfind.
  - destruct Hinv as (Hxp & Htc & Hh & Hg & Hd).
    destruct (updateGoal_found id change s i g Hfind)
      as (Eg & _ & Ex & _ & Et & Eh & Ed & Eq).
    cbv zeta in *. unfold engine_invariant, all_quests.
    rewrite Eg, Ex, Et, Eh, Ed, Eq.
    apply list_find_Some in Hfind as (Hi & _ & _).
    assert (Hrange : 0 <= Goal.current g <= Goal.target g).
    { rewrite Forall_forall in Hg. apply Hg. by apply list_elem_of_lookup_2 in Hi. }
    split; [destruct (_ && _); lia |]. split; [done |]. split; [done |].
    split; [| done].
    apply Forall_insert; [done |]. unfold goal_after, clamp. simpl. lia.
  - by rewrite updateGoal_absent.
Qed.

Lemma engine_invariant_deleteGoal (id : string) (s : State) :
  engine_invariant s -> engine_invariant (deleteGoal id s).
Proof.
  intros (Hxp & Htc & Hh & Hg & Hd). unfold engine_invariant, deleteGoal. simpl.
  split; [done |]. split; [done |]. split; [done |]. split; [| done].
  rewrite Forall_forall in *. intros g [_ Hin]%list_elem_of_filter. by apply Hg.
Qed.

Lemma engine_invariant_addCustomQuest (ms : Z) (quest : Quest.t) (s : State) :
  engine_invariant s ->
  (forall v, dailies s !! fresh_id ms = Some v -> 0 <= v <= quest_bound quest) ->
  engine_invariant (fst (addCustomQuest ms quest s)).
Proof.
  intros (Hxp & Htc & Hh & Hg & Hd) Hfresh. unfold addCustomQuest.
  match goal with
  | |- context [checkAchievements ?st] =>
      destruct (checkAchievements_frame st)
        as (Ex & Et & _ & _ & Ed & Eg & Eq & Eh & _)
  end.
  unfold engine_invariant, all_quests. rewrite Ex, Et, Ed, Eg, Eq, Eh. simpl.
  split; [done |]. split; [done |]. split; [done |]. split; [done |].
  intros q v Hq Hv.
  assert (Hcases : In q (all_quests s) \/
                   q = Quest.mk (fresh_id ms) (Quest.title quest) (Quest.type quest)
                                (Quest.max quest) (Quest.xpPer quest)
                                (Quest.custom quest)).
  { unfold all_quests. simpl.
    destruct Hq as [Hq | [Hq | [Hq | [Hq | Hq]]]]; try tauto.
    apply in_app_or in Hq as [Hq | [Hq | []]]; [| by right].
    left. do 4 right. done. }
  destruct Hcases as [Hold | ->]; [by apply (Hd q v) |].
  simpl in Hv. by apply Hfresh.
Qed.

Lemma engine_invariant_deleteCustomQuest (id : string) (s : State) :
  engine_invariant s -> engine_invariant (deleteCustomQuest id s).
Proof.
  intros (Hxp & Htc & Hh & Hg & Hd). unfold engine_invariant, deleteCustomQuest.
  simpl. split; [done |]. split; [done |]. split; [done |]. split; [done |].
  intros q v Hq. apply Hd. unfold all_quests in *. simpl in *.
  destruct Hq as [Hq | [Hq | [Hq | [Hq | Hq]]]]; try tauto.
  do 4 right. apply list_elem_of_In in Hq. apply list_elem_of_filter in Hq as [_ Hq].
  by apply list_elem_of_In.
Qed.

Create HintDb engine discriminated.

#[local] Hint Resolve engine_invariant_updateDailyProgress
  engine_invariant_addGoal engine_invariant_updateGoal
  engine_invariant_deleteGoal engine_invariant_addCustomQuest
  engine_invariant_deleteCustomQuest : engine.

(** Every quest shown on a day is one of [all_quests]. *)
Lemma quests_of_day_all_quests (day : Z) (s : State) (q : Quest.t) :
  In q (quests_of_day day s) -> In q (all_quests s).
Proof.
  unfold quests_of_day, all_quests.
  destruct ((1 <=? day) && (day <=? 4)); simpl; tauto.
Qed.

Lemma engine_invariant_default : engine_invariant getDefaultState.
Proof.
  unfold engine_invariant. simpl.
  split; [lia |]. split; [lia |]. split; [| split; [done |]].
  - intros date v Hv. by rewrite lookup_empty in Hv.
  - intros q v _ Hv. by rewrite lookup_empty in Hv.
Qed.

Lemma engine_invariant_after_midnight : engine_invariant state_after_midnight.
Proof.
  unfold engine_invariant. simpl.
  split; [lia |]. split; [lia |]. split; [| split; [done |]].
  - intros date v [_ <-]%lookup_singleton_Some. lia.
  - intros q v [<- | [<- | [<- | [<- | []]]]] Hv; vm_compute in Hv;
      first [discriminate Hv | injection Hv as <-; vm_compute; split; discriminate].
Qed.

Lemma engine_invariant_negative_max : engine_invariant state_negative_max.
Proof.
  apply engine_invariant_addCustomQuest; [apply engine_invariant_default |].
  intros v Hv. simpl in Hv. by rewrite lookup_empty in Hv.
Qed.

Example card_call_negative_max :
  let s' := card_call today_2024_01_03 quest_negative_max (CNum 1)
                      state_negative_max in
  customQuests s' = [quest_negative_max] /\
  dailies s' !! "1704240000000" = Some 0 /\
  quest_bound quest_negative_max = -3.
Proof. vm_compute. repeat split; reflexivity. Qed.

(** Each condition on the arguments is needed: a negative goal target, a
    call whose range is not the quest's, and an identifier that still
    carries the progress of a deleted quest each lead out of the
    invariant. *)
Example addGoal_negative_target :
  ~ engine_invariant (addGoal 1704240000000 "Build Portfolio" (-5) getDefaultState).
Proof.
  intros (_ & _ & _ & Hg & _). unfold addGoal in Hg. simpl in Hg.
  rewrite Forall_singleton in Hg. simpl in Hg. lia.
Qed.

Example updateDailyProgress_other_range :
  ~ engine_invariant
      (fst (updateDailyProgress today_2024_01_03 "commit" (CNum 3) 25
              (Some counter) (Some 5) getDefaultState)).
Proof.
  intros (_ & _ & _ & _ & Hd).
  specialize (Hd (Quest.mk "commit" "Make a GitHub Commit" boolean None 25 false) 3).
  assert (0 <= 3 <= 1); [| lia].
  apply Hd; [unfold all_quests; simpl; tauto | vm_compute; reflexivity].
Qed.

Example addCustomQuest_stale_identifier :
  let s := set_dailies {[ "1704240000000" := 3 ]} getDefaultState in
  engine_invariant s /\
  ~ engine_invariant
      (fst (addCustomQuest 1704240000000
              (Quest.mk "" "Stretch" boolean (Some 1) 20 true) s)).
Proof.
  cbv zeta. split.
  - unfold engine_invariant. simpl.
    split; [lia |]. split; [lia |]. split; [| split; [done |]].
    + intros date v Hv. by rewrite lookup_empty in Hv.
    + intros q v [<- | [<- | [<- | [<- | []]]]] Hv; vm_compute in Hv;
        discriminate Hv.
  - intros (_ & _ & _ & _ & Hd).
    specialize (Hd (Quest.mk "1704240000000" "Stretch" boolean (Some 1) 20 true) 3).
    assert (0 <= 3 <= 1); [| lia].
    apply Hd; [| vm_compute; reflexivity].
    right. right. right. right. vm_compute. left. reflexivity.
Qed.

(** C7, as amended: on a state that satisfies the invariant ([xp >= 0],
    [totalCompleted >= 0], every history entry [>= 0], every goal's
    [current] in [[0, target]], every dailies value in [[0, max]] of its
    quest, with 1 for a boolean quest), each engine operation called with
    well-formed arguments gives a state that satisfies it again:
    [updateDailyProgress] for a quest range whose upper end is not negative
    and that is the range of the quests carrying the identifier; [addGoal]
    with a target that is not negative; [addCustomQuest] with an identifier
    that carries no stale progress outside the new quest's range;
    [updateGoal], [deleteGoal] and [deleteCustomQuest] always. *)
Theorem C7_engine_invariant_preserved (s : State) :
  engine_invariant s ->
  (forall (now : Date) (questId : string) (change : Change) (xpGain : Z)
          (type : option QuestType) (max : option Z),
     0 <= call_bound type max ->
     (forall q, In q (all_quests s) -> Quest.id q = questId ->
                quest_bound q = call_bound type max) ->
     engine_invariant
       (fst (updateDailyProgress now questId change xpGain type max s))) /\
  (forall (ms : Z) (title : string) (target : Z),
     0 <= target -> engine_invariant (addGoal ms title target s)) /\
  (forall (id : string) (change : Z),
     engine_invariant (fst (updateGoal id change s))) /\
  (forall id : string, engine_invariant (deleteGoal id s)) /\
  (forall (ms : Z) (quest : Quest.t),
     (forall v, dailies s !! fresh_id ms = Some v -> 0 <= v <= quest_bound quest) ->
     engine_invariant (fst (addCustomQuest ms quest s))) /\
  (forall id : string, engine_invariant (deleteCustomQuest id s)).
Proof.
  intros Hinv.
  split; [| split; [| split; [| split; [| split]]]]; intros; auto with engine.
Qed.

Lemma C7_witness :
  engine_invariant state_after_midnight /\
  engine_invariant
    (fst (updateDailyProgress today_2024_01_03 "leetcode" (CNum (-1)) 15
            (Some counter) (Some 5) state_after_midnight)).
Proof.
  split; [apply engine_invariant_after_midnight |].
  destruct (C7_engine_invariant_preserved state_after_midnight
              engine_invariant_after_midnight) as [Hupdate _].
  apply Hupdate.
  - vm_compute. discriminate.
  - intros q [<- | [<- | [<- | [<- | []]]]] Hid;
      first [reflexivity | vm_compute in Hid; discriminate Hid].
Defined.

(** C7 as stated fails for a custom counter quest whose [max] is negative,
    which the custom-quest form lets through ([parseInt(...) || 1]): the
    state after adding it satisfies the invariant, and the [+] button of
    its card then records progress 0, outside [[0, -3]]. *)
Lemma C7_counterexample :
  ~ (forall (now : Date) (q : Quest.t) (change : Change) (s : State),
       engine_invariant s -> In q (all_quests s) ->
       engine_invariant (card_call now q change s)).
Proof.
  intros H.
  specialize (H today_2024_01_03 quest_negative_max (CNum 1) state_negative_max
                engine_invariant_negative_max).
  destruct card_call_negative_max as (Hquests & Hprogress & Hbound).
  destruct H as (_ & _ & _ & _ & Hd).
  - unfold all_quests. do 4 right. left. reflexivity.
  - specialize (Hd quest_negative_max 0).
    rewrite Hbound in Hd.
    assert (0 <= 0 <= -3); [| lia].
    apply Hd; [| exact Hprogress].
    unfold all_quests. rewrite Hquests. do 4 right. left. reflexivity.
Qed.


(** * Further properties of the engine and of the views *)

(** ** Levels and the header *)






(** ** Dates *)

(** X3: the date string names a calendar day: two valid dates with the same
    string are the same day, and the days reached by going back from today
    all have different strings, so no two days share a history key. *)
Theorem X3_dateString_names_one_day :
  (forall d1 d2 : Date,
     valid_date d1 -> valid_date d2 ->
     (dateString d1 = dateString d2 <-> d1 = d2)) /\
  (forall (now : Date) (j k : nat),
     valid_date now -> j <> k ->
     dateString (days_before j now) <> dateString (days_before k now)).
Proof.
  split.
  - intros d1 d2 H1 H2. split; [by apply dateString_inj | by intros ->].
  - assert (Hlt : forall (now : Date) (j k : nat),
               valid_date now -> (j < k)%nat ->
               date_rank (days_before k now) < date_rank (days_before j now)).
    { intros now j k Hnow Hjk.
      replace k with ((k - j) + j)%nat by lia. unfold days_before.
      rewrite Nat.iter_add. fold (days_before j now).
      pose proof (days_before_rank (k - j) (days_before j now)
                    (days_before_valid j now Hnow)) as Hr.
      unfold days_before in Hr at 1. lia. }
    intros now j k Hnow Hjk.
    destruct (Nat.lt_trichotomy j k) as [Hlt' | [Heq | Hlt']]; [| done |].
    + apply not_eq_sym, dateString_earlier_ne;
        [by apply days_before_valid | by apply days_before_valid | by apply Hlt].
    + apply dateString_earlier_ne;
        [by apply days_before_valid | by apply days_before_valid | by apply Hlt].
Qed.

Lemma X3_witness :
  valid_date today_2024_01_03 /\
  dateString (days_before 0 today_2024_01_03)
  <> dateString (days_before 3 today_2024_01_03).
Proof.
  split; [unfold valid_date; cbn; lia |].
  apply (proj2 X3_dateString_names_one_day today_2024_01_03 0%nat 3%nat);
    [unfold valid_date; cbn; lia | lia].
Defined.

(** *** setDate *)

Lemma prev_month_valid (y m : Z) :
  0 <= m <= 11 -> 0 <= snd (prev_month y m) <= 11.
Proof. unfold prev_month. destruct (Z.ltb_spec 0 m); simpl; lia. Qed.

Lemma next_month_valid (y m : Z) :
  0 <= m <= 11 -> 0 <= snd (next_month y m) <= 11.
Proof. unfold next_month. destruct (Z.ltb_spec m 11); simpl; lia. Qed.

(** Going down: a day at or below the end of the month is brought into a
    month within [fuel] steps of at least 28 days each. *)
Lemma setDate_norm_down (fuel : nat) (y m n : Z) :
  0 <= m <= 11 -> n <= days_in_month y m -> 1 - 28 * Z.of_nat fuel <= n ->
  valid_date (setDate_norm fuel y m n).
Proof.
  revert y m n. induction fuel as [| fuel IH]; intros y m n Hm Hhi Hlo.
  - unfold valid_date. simpl in *. lia.
  - simpl. destruct (Z.ltb_spec n 1) as [Hn | Hn].
    + pose proof (prev_month_valid y m Hm) as Hm'.
      destruct (prev_month y m) as [y' m']. simpl in Hm'.
      pose proof (days_in_month_bounds y' m').
      apply IH; [done | lia | lia].
    + destruct (Z.ltb_spec (days_in_month y m) n); [lia |].
      unfold valid_date. simpl. lia.
Qed.

(** Going up: a day at or above the first of the month. *)
Lemma setDate_norm_up (fuel : nat) (y m n : Z) :
  0 <= m <= 11 -> 1 <= n -> n <= days_in_month y m + 28 * Z.of_nat fuel ->
  valid_date (setDate_norm fuel y m n).
Proof.
  revert y m n. induction fuel as [| fuel IH]; intros y m n Hm Hlo Hhi.
  - unfold valid_date. simpl in *. lia.
  - simpl. destruct (Z.ltb_spec n 1) as [Hn | Hn]; [lia |].
    destruct (Z.ltb_spec (days_in_month y m) n) as [Hd | Hd].
    + pose proof (next_month_valid y m Hm) as Hm'.
      destruct (next_month y m) as [y' m']. simpl in Hm'.
      pose proof (days_in_month_bounds y' m').
      pose proof (days_in_month_bounds y m).
      apply IH; [done | lia | lia].
    + unfold valid_date. simpl. lia.
Qed.

Lemma setDate_norm_in_month (fuel : nat) (y m n : Z) :
  1 <= n <= days_in_month y m -> setDate_norm fuel y m n = mkDate y m n.
Proof.
  intros Hn. destruct fuel as [| fuel]; [done |]. simpl.
  destruct (Z.ltb_spec n 1); [lia |].
  destruct (Z.ltb_spec (days_in_month y m) n); [lia | done].
Qed.

Lemma setDate_in_month (n : Z) (d : Date) :
  1 <= n <= days_in_month (getFullYear d) (getMonth d) ->
  setDate n d = mkDate (getFullYear d) (getMonth d) n.
Proof. intros Hn. by apply setDate_norm_in_month. Qed.

(** A day just below the month, by at most a month: one step back. *)
Lemma setDate_below (n : Z) (d : Date) :
  0 <= getMonth d <= 11 -> -27 <= n < 1 ->
  setDate n d =
  let '(y', m') := prev_month (getFullYear d) (getMonth d) in
  mkDate y' m' (n + days_in_month y' m').
Proof.
  intros Hm Hn. unfold setDate.
  replace (Z.to_nat (Z.abs n) + 1)%nat with (S (Z.to_nat (Z.abs n))) by lia.
  simpl. destruct (Z.ltb_spec n 1); [| lia].
  destruct (prev_month (getFullYear d) (getMonth d)) as [y' m'].
  pose proof (days_in_month_bounds y' m').
  apply setDate_norm_in_month. lia.
Qed.

(** The day after the last of the month: the first of the next month. *)
Lemma setDate_above (d : Date) :
  setDate (days_in_month (getFullYear d) (getMonth d) + 1) d =
  let '(y', m') := next_month (getFullYear d) (getMonth d) in mkDate y' m' 1.
Proof.
  unfold setDate.
  set (dim := days_in_month (getFullYear d) (getMonth d)).
  pose proof (days_in_month_bounds (getFullYear d) (getMonth d)) as Hdim.
  fold dim in Hdim.
  replace (Z.to_nat (Z.abs (dim + 1)) + 1)%nat
    with (S (Z.to_nat (Z.abs (dim + 1)))) by lia.
  simpl. fold dim. destruct (Z.ltb_spec (dim + 1) 1); [lia |].
  destruct (Z.ltb_spec dim (dim + 1)); [| lia].
  destruct (next_month (getFullYear d) (getMonth d)) as [y' m'].
  replace (dim + 1 - dim) with 1 by lia.
  pose proof (days_in_month_bounds y' m').
  apply setDate_norm_in_month. lia.
Qed.

(** [d.setDate(d.getDate() - 1)] is the step of [updateStreak]. *)
Lemma setDate_minus_1 (d : Date) :
  valid_date d -> setDate (getDate d - 1) d = setDate_prev d.
Proof.
  intros [Hm Hd]. unfold setDate_prev.
  destruct (Z.ltb_spec 1 (getDate d)) as [H1 | H1].
  - apply setDate_in_month. lia.
  - rewrite setDate_below by lia. unfold prev_month.
    destruct (0 <? getMonth d); simpl; f_equal;
      first [lia | unfold days_in_month; simpl; lia].
Qed.

(** [d.setDate(d.getDate() + 1)] undoes the step back. *)
Lemma setDate_plus_1_prev (d : Date) :
  valid_date d ->
  setDate (getDate (setDate_prev d) + 1) (setDate_prev d) = d.
Proof.
  destruct d as [y m a]. intros [Hm Hd]. simpl in Hm, Hd.
  unfold setDate_prev. cbn [getFullYear getMonth getDate].
  destruct (Z.ltb_spec 1 a) as [H1 | H1].
  - rewrite setDate_in_month by (simpl; lia). simpl. f_equal. lia.
  - assert (a = 1) as -> by lia.
    destruct (Z.ltb_spec 0 m) as [H0 | H0].
    + pose proof (setDate_above (mkDate y (m - 1) (days_in_month y (m - 1))))
        as Habove.
      cbn [getFullYear getMonth getDate] in *. rewrite Habove.
      unfold next_month. destruct (Z.ltb_spec (m - 1) 11); [| lia].
      f_equal. lia.
    + assert (m = 0) as -> by lia.
      pose proof (setDate_above (mkDate (y - 1) 11 31)) as Habove.
      cbn [getFullYear getMonth getDate] in *.
      change (days_in_month (y - 1) 11) with 31 in Habove. rewrite Habove.
      simpl. f_equal. lia.
Qed.

Lemma days_before_in_month (k : nat) (d : Date) :
  Z.of_nat k < getDate d ->
  days_before k d = mkDate (getFullYear d) (getMonth d) (getDate d - Z.of_nat k).
Proof.
  induction k as [| k IH]; intros Hk.
  - destruct d. simpl. f_equal. lia.
  - change (days_before (S k) d) with (setDate_prev (days_before k d)).
    rewrite IH by lia. unfold setDate_prev. simpl.
    destruct (Z.ltb_spec 1 (getDate d - Z.of_nat k)); [| lia].
    f_equal. lia.
Qed.

Lemma days_before_add (j k : nat) (d : Date) :
  days_before (j + k) d = days_before j (days_before k d).
Proof. unfold days_before. by rewrite Nat.iter_add. Qed.

(** [d.setDate(d.getDate() - 27)] goes back 27 days. *)
Lemma setDate_minus_27 (d : Date) :
  valid_date d -> setDate (getDate d - 27) d = days_before 27 d.
Proof.
  intros Hv. pose proof Hv as [Hm Hd].
  pose proof (days_in_month_bounds (getFullYear d) (getMonth d)) as Hdim.
  destruct (Z.lt_ge_cases 27 (getDate d)) as [Hlate | Hearly].
  - rewrite (days_before_in_month 27) by lia. apply setDate_in_month. lia.
  - set (k := Z.to_nat (getDate d - 1)).
    replace 27%nat with ((27 - S k) + S k)%nat by lia.
    rewrite days_before_add.
    change (days_before (S k) d) with (setDate_prev (days_before k d)).
    rewrite (days_before_in_month k) by lia.
    replace (getDate d - Z.of_nat k) with 1 by lia.
    rewrite setDate_below by lia.
    unfold setDate_prev, prev_month. simpl.
    destruct (Z.ltb_spec 0 (getMonth d)) as [H0 | H0].
    + pose proof (days_in_month_bounds (getFullYear d) (getMonth d - 1)).
      rewrite days_before_in_month by (simpl; lia). simpl. f_equal. lia.
    + rewrite days_before_in_month by (simpl; lia). simpl.
      unfold days_in_month. simpl. f_equal. lia.
Qed.

Lemma setDate_valid (n : Z) (d : Date) :
  0 <= getMonth d <= 11 -> valid_date (setDate n d).
Proof.
  intros Hm. unfold setDate.
  destruct (Z.le_gt_cases n (days_in_month (getFullYear d) (getMonth d))).
  - apply setDate_norm_down; [done | done | lia].
  - pose proof (days_in_month_bounds (getFullYear d) (getMonth d)).
    apply setDate_norm_up; [done | lia | lia].
Qed.

Lemma setDate_prev_plus_1 (d : Date) :
  valid_date d -> setDate_prev (setDate (getDate d + 1) d) = d.
Proof.
  destruct d as [y m a]. intros [Hm Hd]. cbn [getFullYear getMonth getDate] in *.
  destruct (Z.lt_ge_cases a (days_in_month y m)) as [Hin | Hlast].
  - rewrite setDate_in_month by (simpl; lia). unfold setDate_prev. simpl.
    destruct (Z.ltb_spec 1 (a + 1)); [| lia]. f_equal. lia.
  - assert (a = days_in_month y m) as -> by lia.
    pose proof (setDate_above (mkDate y m (days_in_month y m))) as Habove.
    cbn [getFullYear getMonth getDate] in *. rewrite Habove.
    unfold next_month, setDate_prev. destruct (Z.ltb_spec m 11).
    + simpl. destruct (Z.ltb_spec 0 (m + 1)); [| lia].
      replace (m + 1 - 1) with m by lia. done.
    + assert (m = 11) as -> by lia. simpl.
      replace (y + 1 - 1) with y by lia. done.
Qed.

(** X4: [setDate] always lands on a calendar day; [setDate(getDate() - 1)]
    is the step of the streak loop; and one day back then one day forward,
    or one day forward then one day back, returns to the same day, across
    month ends, year ends and leap days. *)
Theorem X4_setDate_calendar :
  (forall (n : Z) (d : Date), 0 <= getMonth d <= 11 -> valid_date (setDate n d)) /\
  (forall d : Date,
     valid_date d ->
     setDate (getDate d - 1) d = setDate_prev d /\
     setDate (getDate (setDate_prev d) + 1) (setDate_prev d) = d /\
     setDate_prev (setDate (getDate d + 1) d) = d).
Proof.
  split; [apply setDate_valid |].
  intros d Hd. split; [by apply setDate_minus_1 |].
  split; [by apply setDate_plus_1_prev | by apply setDate_prev_plus_1].
Qed.

Lemma X4_witness :
  valid_date (mkDate 2024 2 1) /\
  setDate (getDate (mkDate 2024 2 1) - 1) (mkDate 2024 2 1) = mkDate 2024 1 29.
Proof.
  split; [unfold valid_date; cbn; lia |].
  destruct (proj2 X4_setDate_calendar (mkDate 2024 2 1)) as [Hprev _];
    [unfold valid_date; cbn; lia | exact Hprev].
Defined.

(** ** The activity map *)

Lemma gridDays_loop_lookup (h : gmap string Z) (now : Date) (i n j : nat) :
  valid_date now -> (i <= n + 1)%nat -> (j < i)%nat ->
  gridDays_loop i h (days_before n now) !! j
  = Some (dateString (days_before (n - j) now),
          get_or_0 h (dateString (days_before (n - j) now))).
Proof.
  intros Hnow. revert n j. induction i as [| i IH]; intros n j Hi Hj; [lia |].
  cbn [gridDays_loop]. destruct j as [| j].
  - rewrite Nat.sub_0_r. done.
  - destruct n as [| n]; [lia |].
    change (days_before (S n) now) with (setDate_prev (days_before n now)).
    rewrite setDate_plus_1_prev by (by apply days_before_valid).
    cbn [lookup list_lookup]. rewrite IH by lia. done.
Qed.

Lemma gridDays_loop_length (i : nat) (h : gmap string Z) (d : Date) :
  length (gridDays_loop i h d) = i.
Proof. revert d. induction i as [| i IH]; intros d; simpl; [done | by rewrite IH]. Qed.

Example gridDays_example :
  let cells := gridDays today_2024_01_03 state_streak_example in
  cells !! 0%nat = Some ("2023-12-07", 0) /\
  cells !! 26%nat = Some ("2024-01-02", 1) /\
  cells !! 27%nat = Some ("2024-01-03", 0).
Proof. vm_compute. repeat split; reflexivity. Qed.

(** X5: the activity map has 28 cells: cell [j] is the day [27 - j] days
    before today with that day's history count, or 0 when the day has no
    entry; so the last cell is today and the cells are consecutive days in
    calendar order. *)
Theorem X5_gridDays_last_28_days (now : Date) (state : State) :
  valid_date now ->
  length (gridDays now state) = 28%nat /\
  (forall j : nat,
     (j < 28)%nat ->
     gridDays now state !! j
     = Some (dateString (days_before (27 - j) now),
             get_or_0 (history state) (dateString (days_before (27 - j) now)))) /\
  gridDays now state !! 27%nat
  = Some (getTodayString now, get_or_0 (history state) (getTodayString now)).
Proof.
  intros Hnow. unfold gridDays. rewrite setDate_minus_27 by done.
  split; [apply gridDays_loop_length |]. split.
  - intros j Hj. by apply gridDays_loop_lookup; [| lia |].
  - rewrite gridDays_loop_lookup by (done || lia). done.
Qed.

Lemma X5_witness :
  valid_date today_2024_01_03 /\
  length (gridDays today_2024_01_03 state_streak_example) = 28%nat.
Proof.
  split; [unfold valid_date; cbn; lia |].
  destruct (X5_gridDays_last_28_days today_2024_01_03 state_streak_example)
    as [Hlen _]; [unfold valid_date; cbn; lia | exact Hlen].
Defined.

(** ** The streak *)

Lemma days_before_earlier_string (i : nat) (d : Date) :
  valid_date d -> dateString (days_before (S i) d) <> dateString d.
Proof.
  intros Hd. apply dateString_earlier_ne;
    [by apply days_before_valid | done |].
  pose proof (days_before_rank (S i) d Hd). lia.
Qed.

Lemma active_delete_ne (h : gmap string Z) (k k' : string) :
  k <> k' -> active (delete k h) k' = active h k'.
Proof. intros Hne. unfold active. by rewrite lookup_delete_ne. Qed.

(** A run of active days uses one history entry per day. *)
Lemma streak_run_le_size (n : nat) (h : gmap string Z) (d : Date) :
  valid_date d -> streak_run h d n -> (n <= size h)%nat.
Proof.
  revert h d. induction n as [| n IH]; intros h d Hd [Hall Hend]; [lia |].
  assert (Hact : active h (dateString d) = true) by (apply (Hall 0%nat); lia).
  unfold active in Hact.
  destruct (h !! dateString d) as [v |] eqn:Hv; [| done].
  pose proof (map_size_delete_Some (dateString d) h (mk_is_Some _ _ Hv)) as Hsize.
  assert (Hpos : (0 < size h)%nat).
  { destruct (size h) eqn:Hs; [| lia].
    apply map_size_empty_iff in Hs. subst h. by rewrite lookup_empty in Hv. }
  assert (Hrun : streak_run (delete (dateString d) h) (setDate_prev d) n).
  { split.
    - intros i Hi. rewrite <- days_before_S.
      rewrite active_delete_ne
        by (apply not_eq_sym; by apply days_before_earlier_string).
      apply Hall. lia.
    - rewrite <- days_before_S.
      rewrite active_delete_ne
        by (apply not_eq_sym; by apply days_before_earlier_string).
      done. }
  apply IH in Hrun; [lia | by apply setDate_prev_valid].
Qed.

Lemma streak_start_valid (h : gmap string Z) (now : Date) :
  valid_date now -> valid_date (streak_start h now).
Proof.
  intros Hnow. unfold streak_start.
  destruct (active h (dateString now)); [done | by apply setDate_prev_valid].
Qed.

Lemma updateStreak_consistent (now : Date) (s : State) :
  valid_date now -> streak_consistent now (updateStreak now s).
Proof.
  intros Hnow. pose proof (updateStreak_sets now Hnow s) as Hrun.
  apply (updateStreak_loop_result now Hnow) in Hrun as (n & Hn & Hspec).
  exists n. destruct (updateStreak_frame now s) as (_ & _ & _ & _ & _ & _ & _ & -> & _).
  done.
Qed.

Lemma streak_run_zero_iff (h : gmap string Z) (now : Date) (n : nat) :
  streak_run h (streak_start h now) n ->
  (n = 0%nat <->
   active h (dateString now) = false /\
   active h (dateString (setDate_prev now)) = false).
Proof.
  intros [Hall Hend]. unfold streak_start in *.
  destruct (active h (dateString now)) eqn:Htoday.
  - split; [| by intros [? _]].
    intros ->. simpl in Hend. congruence.
  - split.
    + intros ->. simpl in Hend. done.
    + intros [_ Hy]. destruct n as [| n]; [done |].
      specialize (Hall 0%nat ltac:(lia)). simpl in Hall. congruence.
Qed.

(** X6: the streak that [updateStreak] stores is at least 0 and at most the
    number of history entries; it is 0 exactly when neither today nor
    yesterday has a positive entry, and at least 1 as soon as today has
    one. *)
Theorem X6_updateStreak_bounds (now : Date) (s : State) :
  valid_date now ->
  let streak := currentStreak (updateStreak now s) in
  0 <= streak <= Z.of_nat (size (history s)) /\
  (streak = 0 <->
   active (history s) (dateString now) = false /\
   active (history s) (dateString (setDate_prev now)) = false) /\
  (active (history s) (dateString now) = true -> 1 <= streak).
Proof.
  intros Hnow. cbv zeta.
  pose proof (updateStreak_sets now Hnow s) as Hrun.
  apply (updateStreak_loop_result now Hnow) in Hrun as (n & -> & Hspec).
  pose proof (streak_run_le_size n _ _ (streak_start_valid (history s) now Hnow)
                Hspec) as Hle.
  pose proof (streak_run_zero_iff _ _ _ Hspec) as Hzero.
  split; [lia |]. split.
  - rewrite <- Hzero. lia.
  - intros Hact. destruct n as [| n]; [| lia].
    destruct Hzero as [Hz _]. specialize (Hz eq_refl). destruct Hz. congruence.
Qed.

Lemma X6_witness :
  valid_date today_2024_01_03 /\
  0 <= currentStreak (updateStreak today_2024_01_03 state_streak_example)
    <= Z.of_nat (size (history state_streak_example)).
Proof.
  split; [unfold valid_date; cbn; lia |].
  destruct (X6_updateStreak_bounds today_2024_01_03 state_streak_example)
    as [Hbounds _]; [unfold valid_date; cbn; lia | exact Hbounds].
Defined.

Lemma updateDailyProgress_ends_with_updateStreak (now : Date) (questId : string)
    (change : Change) (xpGain : Z) (type : option QuestType) (max : option Z)
    (s : State) :
  exists s1,
    fst (updateDailyProgress now questId change xpGain type max s)
    = updateStreak now s1.
Proof.
  unfold updateDailyProgress.
  destruct (progress_delta _ _ _ _ _) as [[np g] c].
  destruct (checkAchievements _) as [s1 out]. by exists s1.
Qed.

(** What [updateGoal] leaves alone, whether or not the goal is found. *)
Lemma updateGoal_frame (id : string) (change : Z) (s : State) :
  let s' := fst (updateGoal id change s) in
  totalCompleted s' = totalCompleted s /\ history s' = history s /\
  dailies s' = dailies s /\ customQuests s' = customQuests s /\
  lastDate s' = lastDate s /\ currentStreak s' = currentStreak s.
Proof.
  cbv zeta. unfold updateGoal.
  destruct (list_find _ _) as [[i g] |]; [| done].
  destruct (_ && _); checkAchievements_as s1 out Hframe; simpl in *;
    destruct Hframe as (_ & -> & _ & -> & -> & _ & -> & -> & ->); done.
Qed.

Lemma streak_consistent_same (now : Date) (s s' : State) :
  history s' = history s -> currentStreak s' = currentStreak s ->
  streak_consistent now s -> streak_consistent now s'.
Proof. intros Hh Hc (n & Hn & Hrun). exists n. by rewrite Hh, Hc. Qed.

(** X7: on one calendar day the stored streak always matches the stored
    history: [updateDailyProgress] and the daily reset of [init] store the
    streak of the history they leave, and [addGoal], [updateGoal],
    [deleteGoal], [addCustomQuest] and [deleteCustomQuest] change neither.
    In particular the streak is at least 1 after any
    [updateDailyProgress] that leaves today with a positive entry. *)
Theorem X7_streak_matches_history (now : Date) (s : State) :
  valid_date now ->
  (forall questId change xpGain type max,
     let s' := fst (updateDailyProgress now questId change xpGain type max s) in
     streak_consistent now s' /\
     (0 < get_or_0 (history s') (getTodayString now) -> 1 <= currentStreak s')) /\
  (forall savedState,
     lastDate (loaded savedState) <> getTodayString now ->
     streak_consistent now (init savedState now)) /\
  (streak_consistent now s ->
   (forall ms title target, streak_consistent now (addGoal ms title target s)) /\
   (forall id change, streak_consistent now (fst (updateGoal id change s))) /\
   (forall id, streak_consistent now (deleteGoal id s)) /\
   (forall ms quest, streak_consistent now (fst (addCustomQuest ms quest s))) /\
   (forall id, streak_consistent now (deleteCustomQuest id s))).
Proof.
  intros Hnow. split; [| split].
  - intros questId change xpGain type max. cbv zeta.
    destruct (updateDailyProgress_ends_with_updateStreak now questId change
                xpGain type max s) as [s1 ->].
    pose proof (updateStreak_consistent now s1 Hnow) as Hcons.
    split; [done |]. intros Hpos.
    destruct Hcons as (n & Hn & Hrun). rewrite Hn.
    destruct n as [| n]; [| lia].
    apply streak_run_zero_iff in Hrun as [Hzero _].
    destruct (Hzero eq_refl) as [Htoday _].
    unfold active, get_or_0, getTodayString in *.
    destruct (history (updateStreak now s1) !! dateString now); simpl in *; lia.
  - intros savedState Hne. unfold init, daily_reset.
    apply String.eqb_neq in Hne. rewrite Hne. simpl.
    by apply updateStreak_consistent.
  - intros Hcons. split; [| split; [| split; [| split]]].
    + intros. by apply (streak_consistent_same now s).
    + intros id change.
      destruct (updateGoal_frame id change s) as (_ & Hh & _ & _ & _ & Hc).
      by apply (streak_consistent_same now s).
    + intros. by apply (streak_consistent_same now s).
    + intros ms quest. unfold addCustomQuest.
      match goal with
      | |- context [checkAchievements ?st] =>
          destruct (checkAchievements_frame st)
            as (_ & _ & _ & _ & _ & _ & _ & Hh & Hc)
      end.
      by apply (streak_consistent_same now s).
    + intros. by apply (streak_consistent_same now s).
Qed.

Lemma X7_witness :
  valid_date today_2024_01_03 /\
  streak_consistent today_2024_01_03
    (fst (updateDailyProgress today_2024_01_03 "commit" (CBool true) 25
            (Some boolean) None state_streak_example)).
Proof.
  split; [unfold valid_date; cbn; lia |].
  destruct (X7_streak_matches_history today_2024_01_03 state_streak_example)
    as [Hupdate _]; [unfold valid_date; cbn; lia |].
  exact (proj1 (Hupdate "commit" (CBool true) 25 (Some boolean) None)).
Defined.

(** ** Achievements and pop-ups across the operations *)

Lemma NoDup_map_inj {A B : Type} (f : A -> B) (l : list A) (a b : A) :
  NoDup (map f l) -> In a l -> In b l -> f a = f b -> a = b.
Proof.
  induction l as [| x l IH]; simpl; [done |].
  intros [Hx Hnd]%NoDup_cons [-> | Ha] [-> | Hb] Heq; try done.
  - exfalso. apply Hx. rewrite Heq. by apply list_elem_of_In, in_map.
  - exfalso. apply Hx. rewrite <- Heq. by apply list_elem_of_In, in_map.
  - by apply IH.
Qed.

(** An evaluation appends the identifier of an achievement exactly when
    its predicate holds and the identifier is not yet present. *)
Lemma achievement_appended_iff (a : Achievement.t) (s : State) :
  In a ACHIEVEMENTS ->
  (Achievement.id a ∈ appended s <->
   Achievement.condition a s = true /\
   Achievement.id a ∉ unlockedAchievements s).
Proof.
  intros Ha. rewrite appended_closed, list_elem_of_In, in_map_iff. split.
  - intros (a' & Hid & Ha').
    apply elem_of_newly_unlocked in Ha' as (Hin & Hcond & Hfresh).
    assert (a' = a) as ->
      by (by apply (NoDup_map_inj Achievement.id ACHIEVEMENTS);
          [apply ACHIEVEMENTS_ids_NoDup | | |]).
    done.
  - intros [Hcond Hfresh]. exists a. split; [done |].
    by apply elem_of_newly_unlocked.
Qed.

Lemma checkAchievements_unlocked (s : State) :
  unlockedAchievements (fst (checkAchievements s))
  = unlockedAchievements s ++ appended s.
Proof. rewrite appended_closed. by rewrite checkAchievements_closed. Qed.

Lemma checkAchievements_no_level_up (s : State) (level : Z) :
  showLevelUpNotification level ∉ snd (checkAchievements s).
Proof.
  rewrite checkAchievements_closed. simpl.
  rewrite list_elem_of_In, in_map_iff. by intros (a & Ha & _).
Qed.

(** The state that [updateDailyProgress] hands to [checkAchievements]: the
    counters are the new ones, the streak and the unlocked list the old
    ones. *)
Lemma updateDailyProgress_evaluates (now : Date) (questId : string)
    (change : Change) (xpGain : Z) (type : option QuestType) (max : option Z)
    (s : State) :
  let r := updateDailyProgress now questId change xpGain type max s in
  exists s1,
    unlockedAchievements (fst r) = unlockedAchievements (fst (checkAchievements s1)) /\
    snd r =
      (if calculateLevel (xp s) <? calculateLevel (xp s1)
       then [showLevelUpNotification (calculateLevel (xp s1))] else [])
      ++ snd (checkAchievements s1) /\
    xp s1 = xp (fst r) /\
    unlockedAchievements s1 = unlockedAchievements s /\
    currentStreak s1 = currentStreak s.
Proof.
  cbv zeta. unfold updateDailyProgress.
  destruct (progress_delta _ _ _ _ _) as [[np g] c].
  match goal with
  | |- context [checkAchievements ?st] =>
      exists st; pose proof (checkAchievements_frame st) as Hframe;
      destruct (checkAchievements st) as [s1 out] eqn:Hcheck
  end.
  cbn [fst snd] in *.
  destruct (updateStreak_frame now s1) as (Hx & _ & _ & _ & _ & _ & _ & _ & Hu).
  destruct Hframe as (Hx1 & _).
  rewrite Hu, Hx, Hx1. done.
Qed.

Example streak_reaches_7_unrewarded :
  let s' := fst (updateDailyProgress today_2024_01_03 "commit" (CBool true) 25
                   (Some boolean) None state_six_days) in
  currentStreak s' = 7 /\ unlockedAchievements s' = ["first_quest"].
Proof. vm_compute. split; reflexivity. Qed.

(** X8: [updateDailyProgress] evaluates the achievements before it
    recomputes the streak, so [streak_7] and [streak_30] are decided on the
    streak stored before the call: after the call [streak_7] is unlocked
    exactly when it was unlocked before or the old streak was at least 7.
    A completion that brings the streak to 7 is therefore not rewarded by
    that call. *)
Theorem X8_streak_achievements_use_old_streak :
  (forall (now : Date) (questId : string) (change : Change) (xpGain : Z)
          (type : option QuestType) (max : option Z) (s : State),
     let s' := fst (updateDailyProgress now questId change xpGain type max s) in
     ("streak_7" ∈ unlockedAchievements s' <->
      "streak_7" ∈ unlockedAchievements s \/ 7 <= currentStreak s) /\
     ("streak_30" ∈ unlockedAchievements s' <->
      "streak_30" ∈ unlockedAchievements s \/ 30 <= currentStreak s)) /\
  (exists (now : Date) (questId : string) (change : Change) (xpGain : Z)
          (type : option QuestType) (max : option Z) (s : State),
     let s' := fst (updateDailyProgress now questId change xpGain type max s) in
     currentStreak s' = 7 /\ "streak_7" ∉ unlockedAchievements s').
Proof.
  split.
  - intros now questId change xpGain type max s. cbv zeta.
    destruct (updateDailyProgress_evaluates now questId change xpGain type max s)
      as (s1 & -> & _ & _ & Hu & Hc).
    rewrite checkAchievements_unlocked, Hu, !elem_of_app.
    pose proof (achievement_appended_iff
                  (Achievement.mk "streak_7" "Week Warrior"
                     (fun state => 7 <=? currentStreak state)) s1) as H7.
    pose proof (achievement_appended_iff
                  (Achievement.mk "streak_30" "Monthly Master"
                     (fun state => 30 <=? currentStreak state)) s1) as H30.
    simpl in H7, H30. rewrite H7, H30 by (unfold ACHIEVEMENTS; simpl; tauto).
    rewrite Hu, Hc, !Z.leb_le.
    destruct (decide ("streak_7" ∈ unlockedAchievements s));
      destruct (decide ("streak_30" ∈ unlockedAchievements s)); tauto.
  - exists today_2024_01_03, "commit", (CBool true), 25, (Some boolean), None,
      state_six_days.
    destruct streak_reaches_7_unrewarded as [Hs Hu]. cbv zeta in *.
    split; [exact Hs |]. rewrite Hu. by intros ?%list_elem_of_singleton.
Qed.


(** ** Goals *)

Lemma set_goals_same (s : State) : set_goals (goals s) s = s.
Proof. by destruct s. Qed.

Lemma set_customQuests_same (s : State) : set_customQuests (customQuests s) s = s.
Proof. by destruct s. Qed.

Lemma list_find_absent (id : string) (l : list Goal.t) :
  (forall g, g ∈ l -> Goal.id g <> id) ->
  list_find (fun g => Goal.id g = id) l = None.
Proof.
  intros Hno. apply list_find_None, Forall_forall. exact Hno.
Qed.

Lemma filter_keeps_all {A : Type} (P : A -> Prop) `{forall x, Decision (P x)}
    (l : list A) :
  (forall x, x ∈ l -> P x) -> filter P l = l.
Proof.
  induction l as [| x l IH]; intros Hall; [done |].
  rewrite filter_cons_True by (apply Hall; by left).
  f_equal. apply IH. intros y Hy. apply Hall. by right.
Qed.

Example updateGoal_raises_level_silently :
  let r := updateGoal "1704240000000" 1 state_goal_1_of_1 in
  calculateLevel (xp state_goal_1_of_1) = 4 /\
  calculateLevel (xp (fst r)) = 5 /\
  snd r = [showAchievementNotification "Goal Complete! +200 XP";
           showAchievementNotification "Rising Developer";
           showAchievementNotification "Goal Setter"].
Proof. vm_compute. repeat split; reflexivity. Qed.

Lemma updateGoal_found_pop_ups (id : string) (change : Z) (s : State) (i : nat)
    (g : Goal.t) :
  list_find (fun g => Goal.id g = id) (goals s) = Some (i, g) ->
  exists s1,
    snd (updateGoal id change s) =
    (if (Goal.current (goal_after g change) =? Goal.target g)
        && (Goal.current g <? Goal.target g)
     then [showAchievementNotification "Goal Complete! +200 XP"] else [])
    ++ snd (checkAchievements s1).
Proof.
  intros Hfind. unfold updateGoal. rewrite Hfind.
  fold (clamp (Goal.current g + change) 0 (Goal.target g)).
  change (clamp (Goal.current g + change) 0 (Goal.target g))
    with (Goal.current (goal_after g change)).
  destruct ((Goal.current (goal_after g change) =? Goal.target g)
            && (Goal.current g <? Goal.target g));
    match goal with
    | |- context [checkAchievements ?st] =>
        exists st; by destruct (checkAchievements st)
    end.
Qed.

Lemma no_achievement_named_goal_complete (s : State) :
  showAchievementNotification "Goal Complete! +200 XP" ∉ snd (checkAchievements s).
Proof.
  rewrite checkAchievements_closed. simpl. intros Hin.
  apply list_elem_of_In, in_map_iff in Hin as (a & Hname & Ha).
  apply elem_of_newly_unlocked in Ha as (Ha & _).
  injection Hname as Hname. revert Hname.
  unfold ACHIEVEMENTS in Ha. simpl in Ha.
  repeat (destruct Ha as [Heq | Ha]; [rewrite <- Heq; simpl; discriminate |]).
  destruct Ha.
Qed.

(** X10: [updateGoal] never lowers [xp] or [goalsCompleted], announces
    "Goal Complete! +200 XP" exactly when the goal reaches its target from
    below, and never schedules a level-up pop-up, although its bonus can
    raise the level (from 1500 xp it raises level 4 to level 5). *)
Theorem X10_updateGoal_notifications :
  (forall (id : string) (change : Z) (s : State),
     let r := updateGoal id change s in
     xp s <= xp (fst r) /\ goalsCompleted s <= goalsCompleted (fst r) /\
     (forall level, showLevelUpNotification level ∉ snd r) /\
     (showAchievementNotification "Goal Complete! +200 XP" ∈ snd r <->
      exists i g,
        list_find (fun g => Goal.id g = id) (goals s) = Some (i, g) /\
        reaches_target g change)) /\
  (exists (id : string) (change : Z) (s : State),
     calculateLevel (xp s) < calculateLevel (xp (fst (updateGoal id change s)))).
Proof.
  split.
  - intros id change s. cbv zeta.
    destruct (list_find (fun g => Goal.id g = id) (goals s)) as [[i g] |] eqn:Hfind.
    + destruct (updateGoal_found id change s i g Hfind)
        as (_ & _ & Hxp & Hgc & _).
      cbv zeta in Hxp, Hgc.
      destruct (updateGoal_found_pop_ups id change s i g Hfind) as [s1 ->].
      pose proof (completedNow_reaches_target g change) as Hiff.
      pose proof (checkAchievements_no_level_up s1) as Hno.
      pose proof (no_achievement_named_goal_complete s1) as Hnone.
      destruct ((Goal.current (goal_after g change) =? Goal.target g)
                && (Goal.current g <? Goal.target g)) eqn:Hc.
      * split; [lia |]. split; [lia |]. split.
        -- intros level [Hin | Hin]%elem_of_cons; [done | by apply (Hno level)].
        -- split; [| intros _; by left].
           intros _. exists i, g. split; [done | by apply Hiff].
      * split; [lia |]. split; [lia |]. split; [apply Hno |]. split; [done |].
        intros (i' & g' & [= <- <-] & Hr). apply Hiff in Hr. discriminate.
    + rewrite updateGoal_absent by done. simpl.
      split; [lia |]. split; [lia |]. split; [intros level; apply not_elem_of_nil |].
      split; [by intros ?%not_elem_of_nil | by intros (i & g & ? & _)].
  - exists "1704240000000", 1, state_goal_1_of_1.
    destruct updateGoal_raises_level_silently as (-> & -> & _). lia.
Qed.






(** X13: an identifier that no goal (or custom quest) carries is not an
    error: [updateGoal], [deleteGoal] and [deleteCustomQuest] return the
    state as it is, and [updateGoal] schedules nothing.  [deleteGoal]
    removes every goal with the identifier and keeps the others in order,
    so an [updateGoal] on a deleted identifier does nothing. *)
Theorem X13_unknown_identifier_is_no_op (id : string) (s : State) :
  ((forall g, g ∈ goals s -> Goal.id g <> id) ->
   (forall change, updateGoal id change s = (s, [])) /\ deleteGoal id s = s) /\
  ((forall q, q ∈ customQuests s -> Quest.id q <> id) ->
   deleteCustomQuest id s = s) /\
  (forall g, g ∈ goals (deleteGoal id s) <-> g ∈ goals s /\ Goal.id g <> id) /\
  (goals (deleteGoal id s) `sublist_of` goals s) /\
  (forall change,
     updateGoal id change (deleteGoal id s) = (deleteGoal id s, [])) /\
  deleteGoal id (deleteGoal id s) = deleteGoal id s.
Proof.
  assert (Hgone : forall g, g ∈ goals (deleteGoal id s) -> Goal.id g <> id).
  { intros g Hg. unfold deleteGoal in Hg. simpl in Hg.
    by apply list_elem_of_filter in Hg as [? _]. }
  split; [| split; [| split; [| split; [| split]]]].
  - intros Hno. split.
    + intros change. apply updateGoal_absent. by apply list_find_absent.
    + unfold deleteGoal. rewrite filter_keeps_all by done. apply set_goals_same.
  - intros Hno. unfold deleteCustomQuest. rewrite filter_keeps_all by done.
    apply set_customQuests_same.
  - intros g. unfold deleteGoal. simpl. rewrite list_elem_of_filter. tauto.
  - unfold deleteGoal. simpl. apply sublist_filter.
  - intros change. apply updateGoal_absent. by apply list_find_absent.
  - unfold deleteGoal at 1. rewrite filter_keeps_all by done. apply set_goals_same.
Qed.

Lemma X13_witness :
  (forall g, g ∈ goals state_goal_10 -> Goal.id g <> "42") /\
  updateGoal "42" 1 state_goal_10 = (state_goal_10, []).
Proof.
  assert (Hno : forall g, g ∈ goals state_goal_10 -> Goal.id g <> "42").
  { intros g Hg. simpl in Hg. apply list_elem_of_singleton in Hg. by subst. }
  split; [exact Hno |].
  destruct (X13_unknown_identifier_is_no_op "42" state_goal_10) as [Habsent _].
  destruct (Habsent Hno) as [Hupdate _]. apply Hupdate.
Defined.

(** X14: goals created at different milliseconds get different
    identifiers; a goal added under an identifier that no goal carries is
    found by [updateGoal] at the end of the list with [current = 0], and
    deleting it gives back the state before [addGoal]. *)
Theorem X14_addGoal_then_delete (ms : Z) (title : string) (target : Z)
    (s : State) :
  (forall ms', fresh_id ms = fresh_id ms' <-> ms = ms') /\
  ((forall g, g ∈ goals s -> Goal.id g <> fresh_id ms) ->
   list_find (fun g => Goal.id g = fresh_id ms) (goals (addGoal ms title target s))
   = Some (length (goals s), Goal.mk (fresh_id ms) title target 0) /\
   deleteGoal (fresh_id ms) (addGoal ms title target s) = s).
Proof.
  split.
  - intros ms'. unfold fresh_id. split; [apply (inj pretty) | by intros ->].
  - intros Hfresh. split.
    + unfold addGoal. simpl. apply list_find_Some. split; [| split; [done |]].
      * rewrite lookup_app_r by lia. by rewrite Nat.sub_diag.
      * intros j y Hj Hlt. rewrite lookup_app_l in Hj by lia.
        apply Hfresh. by apply list_elem_of_lookup_2 in Hj.
    + unfold deleteGoal, addGoal. simpl. rewrite filter_app.
      rewrite filter_keeps_all by done.
      rewrite filter_cons_False by (simpl; intros H; by apply H).
      rewrite filter_nil, app_nil_r. by destruct s.
Qed.

Lemma X14_witness :
  (forall g, g ∈ goals getDefaultState -> Goal.id g <> fresh_id 1704240000000) /\
  deleteGoal (fresh_id 1704240000000)
             (addGoal 1704240000000 "Build Portfolio" 10 getDefaultState)
  = getDefaultState.
Proof.
  assert (Hno : forall g, g ∈ goals getDefaultState ->
                          Goal.id g <> fresh_id 1704240000000).
  { intros g Hg. simpl in Hg. by apply not_elem_of_nil in Hg. }
  split; [exact Hno |].
  destruct (X14_addGoal_then_delete 1704240000000 "Build Portfolio" 10
              getDefaultState) as [_ Hround].
  destruct (Hround Hno) as [_ Hdelete]. exact Hdelete.
Defined.

(** ** Custom quests *)

Lemma ACHIEVEMENTS_names_NoDup : NoDup (map Achievement.name ACHIEVEMENTS).
Proof. apply (bool_decide_unpack _). vm_compute. exact I. Qed.

(** An evaluation announces an achievement exactly when it appends it. *)
Lemma achievement_announced_iff (a : Achievement.t) (s : State) :
  In a ACHIEVEMENTS ->
  (showAchievementNotification (Achievement.name a) ∈ snd (checkAchievements s) <->
   Achievement.condition a s = true /\
   Achievement.id a ∉ unlockedAchievements s).
Proof.
  intros Ha. rewrite checkAchievements_closed. simpl.
  rewrite list_elem_of_In, in_map_iff. split.
  - intros (a' & Hname & Ha'). injection Hname as Hname.
    apply elem_of_newly_unlocked in Ha' as (Hin & Hcond & Hfresh).
    assert (a' = a) as ->
      by (by apply (NoDup_map_inj Achievement.name ACHIEVEMENTS);
          [apply ACHIEVEMENTS_names_NoDup | | |]).
    done.
  - intros [Hcond Hfresh]. exists a. split; [done |].
    by apply elem_of_newly_unlocked.
Qed.

(** X15: adding a custom quest unlocks [custom_quest] at once (announced as
    "Self Driven" exactly when it was not yet unlocked); deleting the quest
    afterwards keeps the achievement, the xp, the completion counters, the
    day's progress and the history, and, when the identifier was not in
    use, gives back the list of custom quests. *)
Theorem X15_custom_quest_lifecycle (ms : Z) (quest : Quest.t) (s : State) :
  let r := addCustomQuest ms quest s in
  let s2 := deleteCustomQuest (fresh_id ms) (fst r) in
  "custom_quest" ∈ unlockedAchievements (fst r) /\
  (showAchievementNotification "Self Driven" ∈ snd r <->
   "custom_quest" ∉ unlockedAchievements s) /\
  unlockedAchievements s2 = unlockedAchievements (fst r) /\
  xp s2 = xp s /\ totalCompleted s2 = totalCompleted s /\
  dailies s2 = dailies s /\ history s2 = history s /\
  ((forall q, q ∈ customQuests s -> Quest.id q <> fresh_id ms) ->
   customQuests s2 = customQuests s).
Proof.
  cbv zeta. unfold addCustomQuest.
  set (st := set_customQuests _ s).
  pose proof (achievement_appended_iff
                (Achievement.mk "custom_quest" "Self Driven"
                   (fun state => (0 <? length (customQuests state))%nat)) st
                ltac:(unfold ACHIEVEMENTS; simpl; tauto)) as Happ.
  pose proof (achievement_announced_iff
                (Achievement.mk "custom_quest" "Self Driven"
                   (fun state => (0 <? length (customQuests state))%nat)) st
                ltac:(unfold ACHIEVEMENTS; simpl; tauto)) as Hann.
  assert (Hcond : (0 <? length (customQuests st))%nat = true).
  { subst st. simpl. rewrite length_app. simpl. apply Nat.ltb_lt. lia. }
  cbn [Achievement.condition Achievement.id Achievement.name] in Happ, Hann.
  rewrite Hcond in Happ, Hann.
  destruct (checkAchievements_frame st)
    as (Hx & Ht & _ & _ & Hd & _ & Hq & Hh & _).
  cbv zeta in *.
  split; [| split; [| split; [done |]]].
  - rewrite checkAchievements_unlocked, elem_of_app.
    destruct (decide ("custom_quest" ∈ unlockedAchievements st));
      [by left | right; by apply Happ].
  - rewrite Hann. subst st. simpl. tauto.
  - unfold deleteCustomQuest. simpl. rewrite Hx, Ht, Hd, Hh.
    split; [done |]. split; [done |]. split; [done |]. split; [done |].
    intros Hfresh. rewrite Hq. subst st. simpl. rewrite filter_app.
    rewrite filter_keeps_all by done.
    rewrite filter_cons_False by (simpl; intros H; by apply H).
    by rewrite filter_nil, app_nil_r.
Qed.

(** ** What no operation undoes *)

Lemma checkAchievements_grows (s : State) :
  unlocked_grows s (fst (checkAchievements s)).
Proof.
  unfold unlocked_grows. rewrite checkAchievements_unlocked. split.
  - by apply prefix_app_r.
  - intros Hnd. apply NoDup_app. split; [done |]. split; [| apply appended_NoDup].
    intros x Hx Happ. rewrite appended_closed in Happ.
    apply list_elem_of_In, in_map_iff in Happ as (a & <- & Ha).
    by apply elem_of_newly_unlocked in Ha as (_ & _ & Hfresh).
Qed.

Lemma unlocked_grows_same (s s' : State) :
  unlockedAchievements s' = unlockedAchievements s -> unlocked_grows s s'.
Proof. intros H. unfold unlocked_grows. by rewrite H. Qed.

Lemma unlocked_grows_from (s s1 s' : State) :
  unlockedAchievements s1 = unlockedAchievements s ->
  unlockedAchievements s' = unlockedAchievements (fst (checkAchievements s1)) ->
  unlocked_grows s s'.
Proof.
  intros H1 H'. pose proof (checkAchievements_grows s1) as Hg.
  unfold unlocked_grows in *. by rewrite H', <- H1.
Qed.

Lemma updateGoal_unlocked (id : string) (change : Z) (s : State) :
  unlockedAchievements (fst (updateGoal id change s)) = unlockedAchievements s \/
  exists s1,
    unlockedAchievements s1 = unlockedAchievements s /\
    unlockedAchievements (fst (updateGoal id change s))
    = unlockedAchievements (fst (checkAchievements s1)).
Proof.
  unfold updateGoal.
  destruct (list_find _ _) as [[i g] |]; [right | by left].
  destruct (_ && _);
    match goal with
    | |- context [checkAchievements ?st] =>
        exists st; by destruct (checkAchievements st)
    end.
Qed.

Lemma daily_reset_frame (now : Date) (s : State) :
  unlockedAchievements (daily_reset now s) = unlockedAchievements s /\
  xp (daily_reset now s) = xp s /\
  totalCompleted (daily_reset now s) = totalCompleted s /\
  goalsCompleted (daily_reset now s) = goalsCompleted s /\
  goals (daily_reset now s) = goals s /\
  customQuests (daily_reset now s) = customQuests s.
Proof.
  unfold daily_reset. destruct (negb _); [| done].
  match goal with
  | |- context [updateStreak now ?st] =>
      destruct (updateStreak_frame now st)
        as (-> & -> & -> & _ & _ & -> & -> & _ & ->)
  end.
  by destruct (_ =? 0).
Qed.

(** X16: no operation removes or reorders an unlocked achievement, and none
    introduces a repeat: after [updateDailyProgress], [addGoal],
    [updateGoal], [deleteGoal], [addCustomQuest], [deleteCustomQuest] and
    [init]'s daily reset the old list is a prefix of the new one, and the
    new one has no repeats if the old one had none. *)
Theorem X16_unlocked_only_grows (now : Date) (s : State) :
  (forall questId change xpGain type max,
     unlocked_grows s
       (fst (updateDailyProgress now questId change xpGain type max s))) /\
  (forall ms title target, unlocked_grows s (addGoal ms title target s)) /\
  (forall id change, unlocked_grows s (fst (updateGoal id change s))) /\
  (forall id, unlocked_grows s (deleteGoal id s)) /\
  (forall ms quest, unlocked_grows s (fst (addCustomQuest ms quest s))) /\
  (forall id, unlocked_grows s (deleteCustomQuest id s)) /\
  unlocked_grows s (daily_reset now s).
Proof.
  split; [| split; [| split; [| split; [| split; [| split]]]]].
  - intros questId change xpGain type max.
    destruct (updateDailyProgress_evaluates now questId change xpGain type max s)
      as (s1 & Hu & _ & _ & Hs1 & _).
    by apply (unlocked_grows_from s s1).
  - intros. by apply unlocked_grows_same.
  - intros id change.
    destruct (updateGoal_unlocked id change s) as [Hsame | (s1 & Hs1 & Hu)];
      [by apply unlocked_grows_same | by apply (unlocked_grows_from s s1)].
  - intros. by apply unlocked_grows_same.
  - intros ms quest. unfold addCustomQuest.
    match goal with
    | |- context [checkAchievements ?st] => by apply (unlocked_grows_from s st)
    end.
  - intros. by apply unlocked_grows_same.
  - apply unlocked_grows_same. apply daily_reset_frame.
Qed.

Lemma past_kept_same (today : string) (s s' : State) :
  history s' = history s -> past_kept today s s'.
Proof. intros H. unfold past_kept. by rewrite H. Qed.

Lemma past_kept_insert (today : string) (v : Z) (s s' : State) :
  history s' = <[today := v]> (history s) -> past_kept today s s'.
Proof.
  intros H. unfold past_kept. rewrite H. split.
  - intros date Hsome. destruct (decide (today = date)) as [<- | Hne].
    + rewrite lookup_insert_eq. by eexists.
    + by rewrite lookup_insert_ne.
  - intros date Hne. by rewrite lookup_insert_ne.
Qed.

(** X17: no operation rewrites the past: after each of the six operations
    and after [init]'s daily reset every date that had a history entry still
    has one, and the entry of every date other than today is unchanged;
    [goalsCompleted] never goes down. *)
Theorem X17_past_is_kept (now : Date) (s : State) :
  let today := getTodayString now in
  (forall questId change xpGain type max,
     let s' := fst (updateDailyProgress now questId change xpGain type max s) in
     past_kept today s s' /\ goalsCompleted s' = goalsCompleted s) /\
  (forall ms title target,
     history (addGoal ms title target s) = history s /\
     goalsCompleted (addGoal ms title target s) = goalsCompleted s) /\
  (forall id change,
     history (fst (updateGoal id change s)) = history s /\
     goalsCompleted s <= goalsCompleted (fst (updateGoal id change s))) /\
  (forall id,
     history (deleteGoal id s) = history s /\
     goalsCompleted (deleteGoal id s) = goalsCompleted s) /\
  (forall ms quest,
     history (fst (addCustomQuest ms quest s)) = history s /\
     goalsCompleted (fst (addCustomQuest ms quest s)) = goalsCompleted s) /\
  (forall id,
     history (deleteCustomQuest id s) = history s /\
     goalsCompleted (deleteCustomQuest id s) = goalsCompleted s) /\
  past_kept today s (daily_reset now s) /\
  goalsCompleted (daily_reset now s) = goalsCompleted s.
Proof.
  cbv zeta. split; [| split; [| split; [| split; [| split; [| split; [| split]]]]]].
  - intros questId change xpGain type max.
    destruct (progress_delta (get_or_0 (dailies s) questId) change xpGain
                (default counter type) (default 1 max)) as [[np g] c] eqn:Hdelta.
    destruct (updateDailyProgress_fields now questId change xpGain type max s
                np g c Hdelta) as (_ & _ & _ & Hh & _ & _ & Hgc & _).
    split; [by apply (past_kept_insert _ _ _ _ Hh) | done].
  - done.
  - intros id change.
    destruct (updateGoal_frame id change s) as (_ & Hh & _).
    split; [done |].
    destruct (list_find (fun g => Goal.id g = id) (goals s)) as [[i g] |] eqn:Hfind.
    + destruct (updateGoal_found id change s i g Hfind) as (_ & _ & _ & Hgc & _).
      cbv zeta in Hgc. rewrite Hgc. destruct (_ && _); lia.
    + rewrite updateGoal_absent by done. simpl. lia.
  - done.
  - intros ms quest. unfold addCustomQuest.
    match goal with
    | |- context [checkAchievements ?st] =>
        destruct (checkAchievements_frame st)
          as (_ & _ & Hgc & _ & _ & _ & _ & Hh & _)
    end.
    done.
  - done.
  - unfold daily_reset. destruct (negb _); [| by apply past_kept_same].
    match goal with
    | |- context [updateStreak now ?st] =>
        destruct (updateStreak_frame now st)
          as (_ & _ & _ & _ & _ & _ & _ & Hh & _)
    end.
    destruct (_ =? 0) eqn:Hzero.
    + by apply (past_kept_insert _ 0).
    + by apply past_kept_same.
  - apply daily_reset_frame.
Qed.

(** ** init *)

(** X18: the daily reset runs once a day: it always leaves [lastDate] at
    today; on a state whose [lastDate] is already today it changes nothing,
    so the day's [dailies] survive a reload; and running it a second time
    changes nothing. *)
Theorem X18_daily_reset_once_a_day (now : Date) (s : State) :
  lastDate (daily_reset now s) = getTodayString now /\
  (lastDate s = getTodayString now -> daily_reset now s = s) /\
  daily_reset now (daily_reset now s) = daily_reset now s.
Proof.
  assert (Hlast : lastDate (daily_reset now s) = getTodayString now).
  { unfold daily_reset.
    destruct (String.eqb_spec (lastDate s) (getTodayString now)); simpl; [done |].
    match goal with
    | |- context [updateStreak now ?st] =>
        destruct (updateStreak_frame now st) as (_ & _ & _ & -> & _)
    end.
    by destruct (_ =? 0). }
  assert (Hsame : forall s0, lastDate s0 = getTodayString now ->
                             daily_reset now s0 = s0).
  { intros s0 H0. unfold daily_reset. rewrite H0. by rewrite String.eqb_refl. }
  split; [done |]. split; [apply Hsame | by apply Hsame].
Qed.

Lemma X18_witness :
  lastDate (init (Some saved_2024_01_02) today_2024_01_03)
  = getTodayString today_2024_01_03 /\
  daily_reset today_2024_01_03 (init (Some saved_2024_01_02) today_2024_01_03)
  = init (Some saved_2024_01_02) today_2024_01_03.
Proof.
  destruct (X18_daily_reset_once_a_day today_2024_01_03
              (loaded (Some saved_2024_01_02))) as (Hlast & _ & Hagain).
  split; [exact Hlast | exact Hagain].
Defined.

Lemma active_singleton_zero (k k' : string) :
  active ({[ k := 0 ]} : gmap string Z) k' = false.
Proof.
  unfold active. destruct (decide (k = k')) as [<- | Hne].
  - by rewrite lookup_singleton_eq.
  - by rewrite lookup_singleton_ne.
Qed.

(** X19: the first run: with nothing saved, [init] gives the default state
    with [lastDate] today, a history that holds only today's entry 0, and a
    streak of 0. *)
Theorem X19_first_run (now : Date) :
  valid_date now ->
  init None now =
  mkState 0 0 0 (getTodayString now) ∅ [] []
          {[ getTodayString now := 0 ]} [] 0.
Proof.
  intros Hnow. unfold init, loaded, daily_reset.
  change (lastDate getDefaultState) with ""%string.
  assert (String.eqb "" (getTodayString now) = false) as ->.
  { apply String.eqb_neq. intros Heq.
    apply (f_equal String.length) in Heq. unfold getTodayString in Heq.
    rewrite dateString_unfold, !string_app_length in Heq. simpl in Heq. lia. }
  cbn [negb].
  change (history (set_dailies ∅ (set_lastDate (getTodayString now)
                                                getDefaultState)))
    with (∅ : gmap string Z).
  unfold get_or_0. rewrite lookup_empty. cbn [default]. rewrite Z.eqb_refl.
  unfold updateStreak.
  change (history (set_history (<[getTodayString now:=0]> ∅)
                     (set_dailies ∅ (set_lastDate (getTodayString now)
                                                   getDefaultState))))
    with (<[getTodayString now:=0]> (∅ : gmap string Z)).
  unfold streak_fuel. rewrite insert_empty, map_size_singleton.
  change (1 + 2)%nat with 3%nat.
  rewrite updateStreak_loop_today, active_singleton_zero.
  rewrite updateStreak_loop_S, active_singleton_zero.
  rewrite (skips_today_before now Hnow)
    by (by apply setDate_prev_valid || by apply setDate_prev_rank).
  reflexivity.
Qed.

Lemma X19_witness :
  valid_date today_2024_01_03 /\
  init None today_2024_01_03 =
  mkState 0 0 0 (getTodayString today_2024_01_03) ∅ [] []
          {[ getTodayString today_2024_01_03 := 0 ]} [] 0.
Proof.
  split; [unfold valid_date; cbn; lia |].
  apply X19_first_run. unfold valid_date. cbn. lia.
Defined.

(** ** Counter quests and the quest cards *)




(** X21: the button of a boolean quest card always flips what the card
    shows as completed, whatever progress is stored.  On a counter card
    with progress [p] in [[0, max]], [+] is disabled exactly at [max] and
    [-] exactly at 0, where they leave the state as it is; an enabled [+]
    stores [p + 1] and an enabled [-] stores [p - 1], so the buttons never
    reach the clamp of [updateDailyProgress]. *)
Theorem X21_quest_card_buttons (now : Date) (quest : Quest.t) (s : State) :
  let p := get_or_0 (dailies s) (Quest.id quest) in
  (Quest.type quest = boolean ->
   isCompleted quest (dailies (press_toggle now quest s))
   = negb (isCompleted quest (dailies s))) /\
  (forall max : Z,
     Quest.type quest = counter -> Quest.max quest = Some max ->
     0 <= p <= max ->
     (p = max -> press_plus now quest s = s) /\
     (p < max ->
      get_or_0 (dailies (press_plus now quest s)) (Quest.id quest) = p + 1) /\
     (p = 0 -> press_minus now quest s = s) /\
     (0 < p ->
      get_or_0 (dailies (press_minus now quest s)) (Quest.id quest) = p - 1)).
Proof.
  cbv zeta. split.
  - intros Hbool.
    assert (Hshown : forall progress,
              isCompleted quest progress
              = (get_or_0 progress (Quest.id quest) =? 1))
      by (intros progress; unfold isCompleted; by rewrite Hbool).
    unfold press_toggle. rewrite !Hshown.
    pose proof (toggle_fields now (Quest.id quest)
                  (negb (get_or_0 (dailies s) (Quest.id quest) =? 1))
                  (Quest.xpPer quest) s) as Hf.
    cbv zeta in Hf. unfold toggle in Hf.
    destruct (_ && _) in Hf; [| destruct (_ && _) in Hf];
      destruct Hf as (_ & _ & -> & _);
      by destruct (get_or_0 (dailies s) (Quest.id quest) =? 1).
  - intros max Htype Hmax Hp.
    unfold press_plus, press_minus, isCompleted. rewrite Htype, Hmax.
    pose proof (count_by_fields now (Quest.id quest) 1 (Quest.xpPer quest) max s)
      as (Hplus & _).
    pose proof (count_by_fields now (Quest.id quest) (-1) (Quest.xpPer quest)
                  max s) as (Hminus & _).
    cbv zeta in Hplus, Hminus. unfold count_by in Hplus, Hminus.
    split; [| split; [| split]].
    + intros Heq. by destruct (Z.eqb_spec (get_or_0 (dailies s) (Quest.id quest)) max).
    + intros Hlt.
      destruct (Z.eqb_spec (get_or_0 (dailies s) (Quest.id quest)) max); [lia |].
      rewrite Hplus, get_or_0_insert. unfold clamp. lia.
    + intros Heq. by destruct (Z.eqb_spec (get_or_0 (dailies s) (Quest.id quest)) 0).
    + intros Hpos.
      destruct (Z.eqb_spec (get_or_0 (dailies s) (Quest.id quest)) 0); [lia |].
      rewrite Hminus, get_or_0_insert. unfold clamp. lia.
Qed.

Lemma X21_witness :
  let quest := Quest.mk "leetcode" "Solve LeetCode Problems" counter (Some 5)
                        15 false in
  0 <= get_or_0 (dailies state_after_midnight) (Quest.id quest) <= 5 /\
  press_plus today_2024_01_03 quest state_after_midnight = state_after_midnight.
Proof.
  cbv zeta. split; [vm_compute; split; discriminate |].
  destruct (X21_quest_card_buttons today_2024_01_03
              (Quest.mk "leetcode" "Solve LeetCode Problems" counter (Some 5)
                        15 false) state_after_midnight) as [_ Hcounter].
  destruct (Hcounter 5 eq_refl eq_refl) as (Hfull & _);
    [vm_compute; split; discriminate |].
  apply Hfull. reflexivity.
Defined.

(** ** The custom-quest form *)

Lemma parsed_or_nonzero (value : option Z) (dflt : Z) :
  dflt <> 0 -> parsed_or value dflt <> 0.
Proof.
  intros Hd. unfold parsed_or. destruct value as [n |]; [| done].
  by destruct (Z.eqb_spec n 0).
Qed.

Lemma parsed_or_negative (value : option Z) (dflt : Z) :
  0 < dflt -> (parsed_or value dflt < 0 <-> exists n, value = Some n /\ n < 0).
Proof.
  intros Hd. unfold parsed_or. destruct value as [n |].
  - destruct (Z.eqb_spec n 0).
    + split; [lia | intros (m & [= <-] & Hm); lia].
    + split; [intros Hn; by exists n | by intros (m & [= <-] & Hm)].
  - split; [lia | by intros (m & ? & _)].
Qed.

(** X22: the form refuses only an empty title.  Otherwise it appends one
    quest, marked custom, under the new identifier; its [xpPer] and [max]
    are never 0, a boolean quest gets [max = 1], and the quest has a
    negative [xpPer] or a negative [max] exactly when a negative number was
    typed into the field (for [max], on a counter quest): the form passes
    negative numbers on to the engine. *)
Theorem X22_form_addCustomQuest (ms : Z) (title : string) (type : QuestType)
    (maxValue xpValue : option Z) (s : State) :
  let r := form_addCustomQuest ms title type maxValue xpValue s in
  (title = ""%string -> r = (s, [])) /\
  (title <> ""%string ->
   exists quest,
     customQuests (fst r) = customQuests s ++ [quest] /\
     Quest.id quest = fresh_id ms /\ Quest.title quest = title /\
     Quest.type quest = type /\ Quest.custom quest = true /\
     Quest.xpPer quest <> 0 /\ Quest.max quest <> Some 0 /\
     (type = boolean -> Quest.max quest = Some 1) /\
     (Quest.xpPer quest < 0 <-> exists n, xpValue = Some n /\ n < 0) /\
     (quest_bound quest < 0 <->
      type = counter /\ exists n, maxValue = Some n /\ n < 0)).
Proof.
  cbv zeta. unfold form_addCustomQuest. split.
  - intros ->. done.
  - intros Hne. apply String.eqb_neq in Hne. rewrite Hne.
    unfold addCustomQuest.
    match goal with
    | |- context [checkAchievements ?st] =>
        destruct (checkAchievements_frame st) as (_ & _ & _ & _ & _ & _ & -> & _)
    end.
    eexists. split; [reflexivity |]. cbn [Quest.id Quest.title Quest.type
      Quest.custom Quest.xpPer Quest.max].
    split; [done |]. split; [done |]. split; [done |]. split; [done |].
    split; [by apply parsed_or_nonzero |].
    pose proof (parsed_or_nonzero maxValue 1 ltac:(lia)) as Hmax.
    pose proof (parsed_or_negative maxValue 1 ltac:(lia)) as Hmaxneg.
    split; [destruct type; [done | intros [= H]; by apply Hmax] |].
    split; [by intros -> |].
    split; [by apply parsed_or_negative |].
    unfold quest_bound. cbn [Quest.type Quest.max]. destruct type; simpl.
    + split; [lia | by intros [? _]].
    + rewrite Hmaxneg. split; [by intros ? | by intros [_ ?]].
Qed.

(** ** The listeners *)

(** X23: [notify] calls the listeners in the order of their registration,
    a new one last.  The function returned by [subscribe] removes every
    registration of its listener, so a listener registered twice is gone
    after one call of it, and keeps all other listeners in their order;
    for a listener that was not registered before, subscribing and then
    unsubscribing gives back the list. *)
Theorem X23_subscribe_unsubscribe {L : Type} `{EqDecision L} (listener : L)
    (listeners : list L) (state : State) :
  notify (subscribe listener listeners) state
  = notify listeners state ++ [(listener, state)] /\
  (listener ∉ unsubscribe listener listeners) /\
  unsubscribe listener (subscribe listener (subscribe listener listeners))
  = unsubscribe listener listeners /\
  (forall other, other <> listener ->
     filter (fun l => l = other) (unsubscribe listener listeners)
     = filter (fun l => l = other) listeners) /\
  (unsubscribe listener listeners `sublist_of` listeners) /\
  (listener ∉ listeners ->
   unsubscribe listener (subscribe listener listeners) = listeners).
Proof.
  unfold notify, subscribe, unsubscribe.
  assert (Hlast : forall l : list L,
            filter (fun x => x <> listener) (l ++ [listener])
            = filter (fun x => x <> listener) l).
  { intros l. rewrite filter_app.
    rewrite filter_cons_False by (intros H'; by apply H').
    by rewrite filter_nil, app_nil_r. }
  split; [by rewrite map_app |]. split; [| split; [| split; [| split]]].
  - intros Hin. by apply list_elem_of_filter in Hin as [Hne _].
  - by rewrite !Hlast.
  - intros other Hother. induction listeners as [| x l IH]; [done |].
    destruct (decide (x = listener)) as [-> | Hx].
    + rewrite filter_cons_False by (intros H'; by apply H').
      rewrite (filter_cons_False (fun l0 => l0 = other)) by (intros ->; done).
      exact IH.
    + rewrite filter_cons_True by done.
      destruct (decide (x = other)) as [-> | Hxo].
      * rewrite !(filter_cons_True (fun l0 => l0 = other)) by done.
        by rewrite IH.
      * rewrite !(filter_cons_False (fun l0 => l0 = other)) by done.
        exact IH.
  - apply sublist_filter.
  - intros Hfresh. rewrite Hlast. apply filter_keeps_all.
    intros x Hx ->. done.
Qed.

(** ** The quote of the day *)

(** X24: on every calendar day the dailies view has a quote to show: the
    index [getDate() % QUOTES.length] is within the list, and the quote
    depends only on the last digit of the day of the month. *)
Theorem X24_daily_quote_defined (now : Date) :
  valid_date now ->
  (exists quote, daily_quote now = Some quote /\ quote ∈ QUOTES) /\
  (forall other : Date,
     getDate other mod 10 = getDate now mod 10 ->
     daily_quote other = daily_quote now).
Proof.
  intros [_ Hd]. pose proof (days_in_month_bounds (getFullYear now) (getMonth now)).
  split.
  - unfold daily_quote.
    pose proof (Z.mod_pos_bound (getDate now) (Z.of_nat (length QUOTES))
                  ltac:(simpl; lia)) as Hmod.
    destruct (QUOTES !! Z.to_nat (getDate now mod Z.of_nat (length QUOTES)))
      as [quote |] eqn:Hq.
    + exists quote. split; [done |]. by apply list_elem_of_lookup_2 in Hq.
    + apply lookup_ge_None in Hq. lia.
  - intros other Hsame. unfold daily_quote.
    change (Z.of_nat (length QUOTES)) with 10. by rewrite Hsame.
Qed.

Lemma X24_witness :
  valid_date today_2024_01_03 /\
  exists quote, daily_quote today_2024_01_03 = Some quote /\ quote ∈ QUOTES.
Proof.
  split; [unfold valid_date; cbn; lia |].
  destruct (X24_daily_quote_defined today_2024_01_03) as [Hquote _];
    [unfold valid_date; cbn; lia | exact Hquote].
Defined.

(** ** A new day on the quest cards *)

Lemma daily_reset_clears_dailies (now : Date) (s : State) :
  lastDate s <> getTodayString now -> dailies (daily_reset now s) = ∅.
Proof.
  intros Hne. unfold daily_reset. apply String.eqb_neq in Hne. rewrite Hne. simpl.
  match goal with
  | |- context [updateStreak now ?st] =>
      destruct (updateStreak_frame now st) as (_ & _ & _ & _ & -> & _)
  end.
  by destruct (_ =? 0).
Qed.

(** X25: after the daily reset of [init] every quest card starts over:
    the stored progress of every quest reads 0, its [-] button is disabled,
    and no quest whose [max] is not 0 is shown as completed; the xp and the
    completion counters earned before are kept. *)
Theorem X25_new_day_resets_cards (savedState : option SavedState) (now : Date)
    (quest : Quest.t) :
  lastDate (loaded savedState) <> getTodayString now ->
  let s := init savedState now in
  get_or_0 (dailies s) (Quest.id quest) = 0 /\
  press_minus now quest s = s /\
  (Quest.max quest <> Some 0 -> isCompleted quest (dailies s) = false) /\
  xp s = xp (loaded savedState) /\
  totalCompleted s = totalCompleted (loaded savedState) /\
  customQuests s = customQuests (loaded savedState).
Proof.
  intros Hne. cbv zeta. unfold init.
  pose proof (daily_reset_clears_dailies now (loaded savedState) Hne) as Hd.
  destruct (daily_reset_frame now (loaded savedState))
    as (_ & Hx & Ht & _ & _ & Hq).
  assert (Hzero : get_or_0 (dailies (daily_reset now (loaded savedState)))
                           (Quest.id quest) = 0)
    by (rewrite Hd; unfold get_or_0; by rewrite lookup_empty).
  split; [done |]. split; [| split; [| done]].
  - unfold press_minus. by rewrite Hzero.
  - intros Hmax. unfold isCompleted. rewrite Hzero.
    destruct (Quest.type quest); [done |].
    destruct (Quest.max quest) as [m |]; [| done].
    destruct (Z.eqb_spec 0 m); [| done]. by subst.
Qed.

Lemma X25_witness :
  lastDate (loaded (Some saved_2024_01_02)) <> getTodayString today_2024_01_03 /\
  get_or_0 (dailies (init (Some saved_2024_01_02) today_2024_01_03))
           (Quest.id PITCH_QUEST) = 0.
Proof.
  split; [vm_compute; discriminate |].
  destruct (X25_new_day_resets_cards (Some saved_2024_01_02) today_2024_01_03
              PITCH_QUEST) as [Hzero _]; [vm_compute; discriminate | exact Hzero].
Defined.
